(** * MAVLink JSON tap logger: a shallow embedding of
      [mavproxy_logger/mavlink_proxy_with_json.py]

    The development follows the Python class [MAVProxyWithJSON]:
    - Python values as the logger sees them ([PyVal]);
    - [make_json_serializable], the record normalizer;
    - the two library routines the logger relies on, [bytes.decode('utf-8',
      errors='replace')] and [json.dumps], as executable functions;
    - the session object, the log file and the console as explicit state;
    - [setup_json_logging], [log_mavlink_message], [start_json_logger],
      the body of [json_logger_thread] and [stop];
    - the main thread in module [Forwarder]: [setup_logging],
      [start_mavproxy], [run], [main] and its signal handler.

    What the operating system and the MAVLink library do (the clock, opening,
    writing and flushing the file, connecting, receiving, the forwarder
    process) is given to each operation as an explicit argument.  The thread
    is run one turn of its loop at a time; a call of [stop] by the main
    thread takes place between two turns. *)

From Stdlib Require Import ZArith NArith List String Ascii Bool Lia.
From Stdlib Require Import Strings.Byte Numbers.DecimalString.
From stdpp Require Import base option list strings gmap.

Import ListNotations.
Local Open Scope string_scope.
Local Open Scope list_scope.

Local Set Warnings "-register-all".

(** ** Python values *)

(** A Python [str] is a sequence of code points. *)
Abbreviation pystr := (list N).

(** ASCII text as a Python [str]. *)
Definition py (s : string) : pystr :=
  map N_of_ascii (list_ascii_of_string s).

(** Dictionary keys.  The logger never inspects a key; the JSON encoder
    accepts [str], [int], [float], [bool] and [None] keys and rejects every
    other hashable object ([KBytes], and [KOther] for tuples, frozensets and
    the rest, named by their class). *)
Inductive PyKey :=
| KNone
| KBool (b : bool)
| KInt (z : Z)
| KFloat (bits : Z)
| KStr (s : pystr)
| KBytes (b : list byte)
| KOther (cls : string).

(** Values.  A [float] is its IEEE-754 binary64 bit pattern, a [dict] is its
    items in insertion order, and [POther] stands for an instance of any class
    that is none of the ones above it (a set, a [memoryview], a user object),
    named by its class. *)
Inductive PyVal :=
| PNone
| PBool (b : bool)
| PInt (z : Z)
| PFloat (bits : Z)
| PStr (s : pystr)
| PBytes (b : list byte)
| PByteArray (b : list byte)
| PDict (items : list (PyKey * PyVal))
| PList (elts : list PyVal)
| PTuple (elts : list PyVal)
| POther (cls : string).

#[global] Instance byte_eq_decision : EqDecision byte := byte_eq_dec.

#[global] Instance PyKey_eq_decision : EqDecision PyKey.
Proof. solve_decision. Defined.

(** ** [bytes.decode('utf-8', errors='replace')]

    The interpreter's UTF-8 decoder with the [replace] error handler: a
    well-formed sequence gives its code point; an invalid start byte, or a
    start byte followed by a byte that cannot continue it, is replaced by
    U+FFFD and decoding resumes at the first byte that was not accepted; a
    sequence cut short by the end of the data is replaced as a whole. *)

Definition REPLACEMENT_CHARACTER : N := 0xFFFD.

Definition is_continuation_byte (b : N) : bool :=
  ((0x80 <=? b) && (b <=? 0xBF))%N.

Fixpoint utf8_decode_replace (s : list byte) : pystr :=
  match s with
  | [] => []
  | b1 :: r1 =>
    let ch := Byte.to_N b1 in
    if (ch <? 0x80)%N then ch :: utf8_decode_replace r1
    else if (ch <? 0xC2)%N then
      REPLACEMENT_CHARACTER :: utf8_decode_replace r1
    else if (ch <? 0xE0)%N then
      match r1 with
      | [] => [REPLACEMENT_CHARACTER]
      | b2 :: r2 =>
        let ch2 := Byte.to_N b2 in
        if is_continuation_byte ch2
        then ((ch - 0xC0) * 64 + (ch2 - 0x80))%N :: utf8_decode_replace r2
        else REPLACEMENT_CHARACTER :: utf8_decode_replace r1
      end
    else if (ch <? 0xF0)%N then
      match r1 with
      | [] => [REPLACEMENT_CHARACTER]
      | b2 :: r2 =>
        let ch2 := Byte.to_N b2 in
        if negb (is_continuation_byte ch2)
           || (if (ch2 <? 0xA0)%N then (ch =? 0xE0)%N else (ch =? 0xED)%N)
        then REPLACEMENT_CHARACTER :: utf8_decode_replace r1
        else
          match r2 with
          | [] => [REPLACEMENT_CHARACTER]
          | b3 :: r3 =>
            let ch3 := Byte.to_N b3 in
            if is_continuation_byte ch3
            then ((ch - 0xE0) * 4096 + (ch2 - 0x80) * 64 + (ch3 - 0x80))%N
                   :: utf8_decode_replace r3
            else REPLACEMENT_CHARACTER :: utf8_decode_replace r2
          end
      end
    else if (ch <? 0xF5)%N then
      match r1 with
      | [] => [REPLACEMENT_CHARACTER]
      | b2 :: r2 =>
        let ch2 := Byte.to_N b2 in
        if negb (is_continuation_byte ch2)
           || (if (ch2 <? 0x90)%N then (ch =? 0xF0)%N else (ch =? 0xF4)%N)
        then REPLACEMENT_CHARACTER :: utf8_decode_replace r1
        else
          match r2 with
          | [] => [REPLACEMENT_CHARACTER]
          | b3 :: r3 =>
            let ch3 := Byte.to_N b3 in
            if negb (is_continuation_byte ch3)
            then REPLACEMENT_CHARACTER :: utf8_decode_replace r2
            else
              match r3 with
              | [] => [REPLACEMENT_CHARACTER]
              | b4 :: r4 =>
                let ch4 := Byte.to_N b4 in
                if is_continuation_byte ch4
                then ((ch - 0xF0) * 262144 + (ch2 - 0x80) * 4096
                      + (ch3 - 0x80) * 64 + (ch4 - 0x80))%N
                       :: utf8_decode_replace r4
                else REPLACEMENT_CHARACTER :: utf8_decode_replace r3
              end
          end
      end
    else REPLACEMENT_CHARACTER :: utf8_decode_replace r1
  end.

(** A Unicode scalar value: a code point that is not a surrogate. *)
Definition is_scalar_value (c : N) : bool :=
  ((c <? 0xD800) || ((0xE000 <=? c) && (c <? 0x110000)))%N.

(** The UTF-8 encoding of a code point, as byte values: one byte below
    U+0080, two below U+0800, three below U+10000, four beyond. *)
Definition utf8_encode_char (c : N) : list N :=
  if (c <? 0x80)%N then [c]
  else if (c <? 0x800)%N then [0xC0 + c / 64; 0x80 + c mod 64]%N
  else if (c <? 0x10000)%N then
    [0xE0 + c / 4096; 0x80 + (c / 64) mod 64; 0x80 + c mod 64]%N
  else
    [0xF0 + c / 262144; 0x80 + (c / 4096) mod 64; 0x80 + (c / 64) mod 64;
     0x80 + c mod 64]%N.

Definition utf8_encode (s : pystr) : list N := flat_map utf8_encode_char s.

(** ** The record normalizer *)

(** [MAVProxyWithJSON.make_json_serializable]: [bytearray] and [bytes] are
    decoded, [dict], [list] and [tuple] are rebuilt around their converted
    members (a tuple becomes a list), anything else is returned as it is.
    Values are finite trees; the recursion limit of the interpreter is not
    part of the model. *)
Fixpoint make_json_serializable (obj : PyVal) : PyVal :=
  match obj with
  | PByteArray b => PStr (utf8_decode_replace b)
  | PBytes b => PStr (utf8_decode_replace b)
  | PDict items =>
      PDict (map (fun kv => (fst kv, make_json_serializable (snd kv))) items)
  | PList elts => PList (map make_json_serializable elts)
  | PTuple elts => PList (map make_json_serializable elts)
  | _ => obj
  end.

(** ** Trees, leaves and paths *)



(** Keys the JSON encoder can write. *)
Definition is_json_key (k : PyKey) : bool :=
  match k with
  | KNone | KBool _ | KInt _ | KFloat _ | KStr _ => true
  | KBytes _ | KOther _ => false
  end.

(** A JSON-safe tree: null, bool, number and string leaves under arrays and
    objects; no binary value, no tuple, no foreign object. *)
Fixpoint json_safe (v : PyVal) : bool :=
  match v with
  | PNone | PBool _ | PInt _ | PFloat _ | PStr _ => true
  | PDict items =>
      forallb (fun kv => is_json_key (fst kv) && json_safe (snd kv)) items
  | PList elts => forallb json_safe elts
  | PBytes _ | PByteArray _ | PTuple _ | POther _ => false
  end.







(** [d[k]] on the items of a dictionary. *)
Fixpoint dict_get (k : PyKey) (items : list (PyKey * PyVal)) : option PyVal :=
  match items with
  | [] => None
  | (k', v) :: rest => if decide (k' = k) then Some v else dict_get k rest
  end.

(** A position in a tree: a chain of subscripts. *)
Inductive Subscript :=
| Key (k : PyKey)
| Index (i : nat).

Fixpoint at_path (p : list Subscript) (v : PyVal) : option PyVal :=
  match p with
  | [] => Some v
  | Key k :: p' =>
      match v with
      | PDict items =>
          match dict_get k items with
          | Some v' => at_path p' v'
          | None => None
          end
      | _ => None
      end
  | Index i :: p' =>
      match v with
      | PList elts | PTuple elts =>
          match nth_error elts i with
          | Some v' => at_path p' v'
          | None => None
          end
      | _ => None
      end
  end.

(** ** Exceptions and results *)

(** An exception: its class and its message.  Every exception of the model is
    an instance of [Exception]. *)
Inductive Exn :=
| Exception (cls : string) (msg : string).

Definition exn_class (e : Exn) : string :=
  match e with Exception cls _ => cls end.

Definition TypeError (msg : string) : Exn := Exception "TypeError" msg.
Definition ValueError (msg : string) : Exn := Exception "ValueError" msg.
Definition AttributeError (msg : string) : Exn :=
  Exception "AttributeError" msg.

(** A call either returns or raises. *)
Inductive Outcome (A : Type) :=
| Return (a : A)
| Raise (e : Exn).

Arguments Return {A} a.
Arguments Raise {A} e.

#[global] Instance Outcome_ret : MRet Outcome := fun A a => Return a.

#[global] Instance Outcome_bind : MBind Outcome := fun A B f m =>
  match m with
  | Return a => f a
  | Raise e => Raise e
  end.

(** Evaluate the members of a sequence left to right; the first exception
    ends the evaluation. *)
Fixpoint collect {A : Type} (l : list (Outcome A)) : Outcome (list A) :=
  match l with
  | [] => Return []
  | Raise e :: _ => Raise e
  | Return a :: rest =>
      match collect rest with
      | Return l' => Return (a :: l')
      | Raise e => Raise e
      end
  end.

(** ** [json.dumps] with its default arguments

    [ensure_ascii=True], [allow_nan=True], separators [", "] and [": "], no
    indentation, no key sorting, no [default] hook. *)

Definition LF : ascii := "010"%char.
Definition DQUOTE : ascii := "034"%char.
Definition BACKSLASH : ascii := "092"%char.

Definition hex_digits : list ascii :=
  list_ascii_of_string "0123456789abcdef".

Definition hex_digit (d : N) : ascii := nth (N.to_nat d) hex_digits "f"%char.

(** ['{0:04x}'.format(n)] for [n < 0x10000]. *)
Definition hex4 (n : N) : string :=
  String (hex_digit (n / 4096 mod 16))
    (String (hex_digit (n / 256 mod 16))
       (String (hex_digit (n / 16 mod 16))
          (String (hex_digit (n mod 16)) ""))).

Definition two (a b : ascii) : string := String a (String b "").

(** The replacement of one character by [py_encode_basestring_ascii]:
    printable ASCII other than the quote and the backslash is kept, the rest
    is escaped, code points beyond the BMP as a surrogate pair. *)
Definition escape_char (c : N) : string :=
  if (c =? 0x5C)%N then two BACKSLASH BACKSLASH
  else if (c =? 0x22)%N then two BACKSLASH DQUOTE
  else if ((0x20 <=? c) && (c <=? 0x7E))%N then String (ascii_of_N c) ""
  else if (c =? 0x08)%N then two BACKSLASH "b"
  else if (c =? 0x0C)%N then two BACKSLASH "f"
  else if (c =? 0x0A)%N then two BACKSLASH "n"
  else if (c =? 0x0D)%N then two BACKSLASH "r"
  else if (c =? 0x09)%N then two BACKSLASH "t"
  else if (c <? 0x10000)%N then two BACKSLASH "u" +:+ hex4 c
  else
    let n := (c - 0x10000)%N in
    let s1 := N.lor 0xD800 (N.land (N.shiftr n 10) 0x3FF) in
    let s2 := N.lor 0xDC00 (N.land n 0x3FF) in
    two BACKSLASH "u" +:+ hex4 s1 +:+ two BACKSLASH "u" +:+ hex4 s2.

Definition py_encode_basestring_ascii (s : pystr) : string :=
  String DQUOTE (String.concat "" (map escape_char s) +:+ String DQUOTE "").

(** [int.__repr__], without the interpreter's limit on the number of digits
    of such a conversion. *)
Definition int_repr (z : Z) : string := NilZero.string_of_int (Z.to_int z).

Definition float_exponent (bits : Z) : Z := Z.land (Z.shiftr bits 52) 0x7FF.
Definition float_mantissa (bits : Z) : Z := Z.land bits 0xFFFFFFFFFFFFF.
Definition float_is_nan (bits : Z) : bool :=
  (float_exponent bits =? 0x7FF)%Z && negb (float_mantissa bits =? 0)%Z.
Definition POS_INF : Z := 0x7FF0000000000000.
Definition NEG_INF : Z := 0xFFF0000000000000.

Section Logger.

(** [float.__repr__] on a finite float, given by its bit pattern.  The
    shortest-digits algorithm of the interpreter is not reproduced; the
    development only uses that the text it prints has no line feed. *)
Variable float_repr : Z -> string.

(** The encoder's [floatstr]. *)
Definition floatstr (bits : Z) : string :=
  if float_is_nan bits then "NaN"
  else if (bits =? POS_INF)%Z then "Infinity"
  else if (bits =? NEG_INF)%Z then "-Infinity"
  else float_repr bits.

(** The text of a dictionary key; a key of another class is a [TypeError]. *)
Definition json_key (k : PyKey) : Outcome pystr :=
  match k with
  | KStr s => Return s
  | KFloat bits => Return (py (floatstr bits))
  | KBool true => Return (py "true")
  | KBool false => Return (py "false")
  | KNone => Return (py "null")
  | KInt z => Return (py (int_repr z))
  | KBytes _ =>
      Raise (TypeError "keys must be str, int, float, bool or None, not bytes")
  | KOther cls =>
      Raise (TypeError
               ("keys must be str, int, float, bool or None, not " +:+ cls))
  end.

Definition not_serializable (cls : string) : Exn :=
  TypeError ("Object of type " +:+ cls +:+ " is not JSON serializable").

Fixpoint json_dumps (o : PyVal) : Outcome string :=
  match o with
  | PStr s => Return (py_encode_basestring_ascii s)
  | PNone => Return "null"
  | PBool true => Return "true"
  | PBool false => Return "false"
  | PInt z => Return (int_repr z)
  | PFloat bits => Return (floatstr bits)
  | PList elts | PTuple elts =>
      parts ← collect (map json_dumps elts);
      Return ("[" +:+ String.concat ", " parts +:+ "]")
  | PDict items =>
      parts ← collect (map (fun kv =>
                              k ← json_key (fst kv);
                              v ← json_dumps (snd kv);
                              Return (py_encode_basestring_ascii k
                                      +:+ ": " +:+ v))
                           items);
      Return ("{" +:+ String.concat ", " parts +:+ "}")
  | PBytes _ => Raise (not_serializable "bytes")
  | PByteArray _ => Raise (not_serializable "bytearray")
  | POther cls => Raise (not_serializable cls)
  end.

(** ** The session object and its surroundings *)

(** The text file behind [self.json_log_file]: its name, whether it has been
    closed, and the text written to it that has not been flushed yet. *)
Record TextFile := {
  name : string;
  closed : bool;
  pending : string
}.

(** The [subprocess.Popen] object of the forwarder: its exit status once the
    process has been reaped. *)
Record Popen := {
  returncode : option Z
}.

Record Thread := {
  daemon : bool
}.

(** The attributes set by [MAVProxyWithJSON.__init__]. *)
Record MAVProxyWithJSON := {
  px4_connection : string;
  qgc_port : Z;
  json_port : Z;
  log_dir : string;
  mavproxy_process : option Popen;
  json_logger : option Thread;
  json_log_file : option TextFile;
  json_logging_enabled : bool
}.

(** [MAVProxyWithJSON(...)] (the directory of the logs is not modelled). *)
Definition init (px4_connection : string) (qgc_port json_port : Z)
    (log_dir : string) : MAVProxyWithJSON :=
  {| px4_connection := px4_connection;
     qgc_port := qgc_port;
     json_port := json_port;
     log_dir := log_dir;
     mavproxy_process := None;
     json_logger := None;
     json_log_file := None;
     json_logging_enabled := true |}.

(** A line printed on the console. *)
Inductive Line :=
| JsonLoggingTo (filename : string)
| FailedToSetupJsonLogging (e : Exn)
| JsonLoggingError (e : Exn)
| JsonLoggerConnected
| JsonLoggerError (e : Exn)
| JsonLoggerConnectionFailed (e : Exn)
| JsonLoggingStopped
| MavproxyStopped
| ErrorStoppingMavproxy (e : Exn).

(** The logger object, the files on disk (name to contents) and the console
    output so far. *)
Record World := {
  self : MAVProxyWithJSON;
  files : gmap string string;
  console : list Line
}.

Definition with_self (f : MAVProxyWithJSON -> MAVProxyWithJSON) (w : World)
    : World :=
  {| self := f (self w); files := files w; console := console w |}.

Definition with_files (f : gmap string string -> gmap string string)
    (w : World) : World :=
  {| self := self w; files := f (files w); console := console w |}.

Definition set_json_log_file (f : option TextFile) (me : MAVProxyWithJSON)
    : MAVProxyWithJSON :=
  {| px4_connection := px4_connection me;
     qgc_port := qgc_port me;
     json_port := json_port me;
     log_dir := log_dir me;
     mavproxy_process := mavproxy_process me;
     json_logger := json_logger me;
     json_log_file := f;
     json_logging_enabled := json_logging_enabled me |}.

Definition set_json_logging_enabled (b : bool) (me : MAVProxyWithJSON)
    : MAVProxyWithJSON :=
  {| px4_connection := px4_connection me;
     qgc_port := qgc_port me;
     json_port := json_port me;
     log_dir := log_dir me;
     mavproxy_process := mavproxy_process me;
     json_logger := json_logger me;
     json_log_file := json_log_file me;
     json_logging_enabled := b |}.

Definition set_json_logger (t : option Thread) (me : MAVProxyWithJSON)
    : MAVProxyWithJSON :=
  {| px4_connection := px4_connection me;
     qgc_port := qgc_port me;
     json_port := json_port me;
     log_dir := log_dir me;
     mavproxy_process := mavproxy_process me;
     json_logger := t;
     json_log_file := json_log_file me;
     json_logging_enabled := json_logging_enabled me |}.

Definition set_mavproxy_process (p : option Popen) (me : MAVProxyWithJSON)
    : MAVProxyWithJSON :=
  {| px4_connection := px4_connection me;
     qgc_port := qgc_port me;
     json_port := json_port me;
     log_dir := log_dir me;
     mavproxy_process := p;
     json_logger := json_logger me;
     json_log_file := json_log_file me;
     json_logging_enabled := json_logging_enabled me |}.

(** ** Statements: state, console and exceptions *)

Definition Py (A : Type) : Type := World -> Outcome A * World.

#[global] Instance Py_ret : MRet Py := fun A a w => (Return a, w).

#[global] Instance Py_bind : MBind Py := fun A B f m w =>
  match m w with
  | (Return a, w') => f a w'
  | (Raise e, w') => (Raise e, w')
  end.

Definition raise {A : Type} (e : Exn) : Py A := fun w => (Raise e, w).

Definition get_self : Py MAVProxyWithJSON := fun w => (Return (self w), w).

Definition update (f : World -> World) : Py unit := fun w => (Return tt, f w).

Definition print (l : Line) : Py unit :=
  update (fun w =>
            {| self := self w; files := files w;
               console := console w ++ [l] |}).

(** [try: body  except Exception as e: handler(e)] *)
Definition try_except {A : Type} (body : Py A) (handler : Exn -> Py A)
    : Py A := fun w =>
  match body w with
  | (Return a, w') => (Return a, w')
  | (Raise e, w') => handler e w'
  end.

(** [try: body  except cls: handler] for one exception class. *)
Definition try_except_class {A : Type} (cls : string) (body : Py A)
    (handler : Py A) : Py A := fun w =>
  match body w with
  | (Return a, w') => (Return a, w')
  | (Raise e, w') =>
      if decide (exn_class e = cls) then handler w' else (Raise e, w')
  end.

(** The value of an expression that may raise. *)
Definition evaluate {A : Type} (r : Outcome A) : Py A := fun w => (r, w).

Definition run {A : Type} (m : Py A) (w : World) : World := snd (m w).

(** ** The operating system, as seen by one call *)

(** How a write or a flush goes: completely, or up to some number of
    characters before the error. *)
Inductive IoResult :=
| IoOk
| IoError (done : nat) (e : Exn).

Definition take_string (n : nat) (s : string) : string := substring 0 n s.
Definition drop_string (n : nat) (s : string) : string :=
  substring n (String.length s - n) s.

Definition contents (path : string) (fs : gmap string string) : string :=
  default "" (fs !! path).

Definition append_to (path : string) (data : string)
    (fs : gmap string string) : gmap string string :=
  <[path := contents path fs +:+ data]> fs.

Definition closed_file_error : Exn :=
  ValueError "I/O operation on closed file.".

Definition none_has_no_attribute (attr : string) : Exn :=
  AttributeError ("'NoneType' object has no attribute '" +:+ attr +:+ "'").

(** [self.json_log_file.write(data)] *)
Definition file_write (res : IoResult) (data : string) : Py unit :=
  me ← get_self;
  match json_log_file me with
  | None => raise (none_has_no_attribute "write")
  | Some f =>
      if closed f then raise closed_file_error
      else
        match res with
        | IoOk =>
            update (with_self (set_json_log_file
              (Some {| name := name f; closed := false;
                       pending := pending f +:+ data |})))
        | IoError n e =>
            update (with_self (set_json_log_file
              (Some {| name := name f; closed := false;
                       pending := pending f +:+ take_string n data |})));;
            raise e
        end
  end.

(** [self.json_log_file.flush()] *)
Definition file_flush (res : IoResult) : Py unit :=
  me ← get_self;
  match json_log_file me with
  | None => raise (none_has_no_attribute "flush")
  | Some f =>
      if closed f then raise closed_file_error
      else
        match res with
        | IoOk =>
            update (with_files (append_to (name f) (pending f)));;
            update (with_self (set_json_log_file
              (Some {| name := name f; closed := false; pending := "" |})))
        | IoError n e =>
            update (with_files
                      (append_to (name f) (take_string n (pending f))));;
            update (with_self (set_json_log_file
              (Some {| name := name f; closed := false;
                       pending := drop_string n (pending f) |})));;
            raise e
        end
  end.

(** [self.json_log_file.close()]: flushes, and closes the file also when the
    flush fails; closing a closed file does nothing. *)
Definition file_close (res : IoResult) : Py unit :=
  me ← get_self;
  match json_log_file me with
  | None => raise (none_has_no_attribute "close")
  | Some f =>
      if closed f then mret tt
      else
        match res with
        | IoOk =>
            update (with_files (append_to (name f) (pending f)));;
            update (with_self (set_json_log_file
              (Some {| name := name f; closed := true; pending := "" |})))
        | IoError n e =>
            update (with_files
                      (append_to (name f) (take_string n (pending f))));;
            update (with_self (set_json_log_file
              (Some {| name := name f; closed := true;
                       pending := drop_string n (pending f) |})));;
            raise e
        end
  end.

(** ** Messages *)

(** A decoded MAVLink message, by the results of the accessors the logger
    calls on it. *)
Record MAVLinkMessage := {
  get_type : pystr;
  get_msgId : Z;
  get_srcSystem : Z;
  get_srcComponent : Z;
  get_seq : Z;
  to_dict : list (PyKey * PyVal)
}.

(** What one call of [log_mavlink_message] meets: the reading of the UTC
    clock, as [isoformat()] prints it, and how the write and the flush go. *)
Record CallEnv := {
  utc_now_isoformat : string;
  write_result : IoResult;
  flush_result : IoResult
}.

(** The dictionary built in [log_mavlink_message]. *)
Definition json_entry (timestamp : pystr) (msg : MAVLinkMessage)
    (direction : pystr) : PyVal :=
  PDict [ (KStr (py "timestamp"), PStr timestamp);
          (KStr (py "system_id"), PInt (get_srcSystem msg));
          (KStr (py "component_id"), PInt (get_srcComponent msg));
          (KStr (py "msg_id"), PInt (get_msgId msg));
          (KStr (py "msg_name"), PStr (get_type msg));
          (KStr (py "seq"), PInt (get_seq msg));
          (KStr (py "direction"), PStr direction);
          (KStr (py "payload"),
           make_json_serializable (PDict (to_dict msg))) ].


(** [MAVProxyWithJSON.log_mavlink_message] *)
Definition log_mavlink_message (env : CallEnv) (msg : MAVLinkMessage)
    (direction : pystr) : Py unit :=
  me ← get_self;
  if negb (bool_decide (is_Some (json_log_file me)))
     || negb (json_logging_enabled me)
  then mret tt
  else
    try_except
      (let timestamp := py (utc_now_isoformat env) in
       let entry := json_entry timestamp msg direction in
       text ← evaluate (json_dumps entry);
       file_write (write_result env) (text +:+ String LF "");;
       file_flush (flush_result env))
      (fun e => print (JsonLoggingError e)).

(** What [setup_json_logging] meets: the local time as [strftime] prints it
    and whether the file can be opened. *)
Record SetupEnv := {
  local_now_strftime : string;
  open_result : option Exn
}.

(** [MAVProxyWithJSON.setup_json_logging]: opening for writing creates the
    file, or empties it. *)
Definition setup_json_logging (env : SetupEnv) : Py bool :=
  me ← get_self;
  let timestamp := local_now_strftime env in
  let json_log_filename :=
    log_dir me +:+ "/mavlink_messages_" +:+ timestamp +:+ ".jsonl" in
  try_except
    (match open_result env with
     | Some e => raise e
     | None =>
         update (with_files (insert json_log_filename ""));;
         update (with_self (set_json_log_file
           (Some {| name := json_log_filename; closed := false;
                    pending := "" |})))
     end;;
     print (JsonLoggingTo json_log_filename);;
     mret true)
    (fun e => print (FailedToSetupJsonLogging e);; mret false).

(** What [recv_match(blocking=True, timeout=1.0)] gives: a message, [None]
    after the timeout, or an exception. *)
Inductive Received :=
| Message (msg : MAVLinkMessage)
| NoMessage
| ReceiveRaises (e : Exn).

(** One turn of the loop of [json_logger_thread]: the outcome of the receive
    call and, for the message it may return, the surroundings of the call
    that logs it. *)
Record Turn := {
  received : Received;
  call_env : CallEnv
}.

(** Whether the loop has been left. *)
Inductive LoopState :=
| Looping
| Exited.

Inductive Flow :=
| NextTurn
| Break.

(** The body of the [while] loop: the [try] statement with its handler. *)
Definition loop_body (t : Turn) : Py Flow :=
  try_except
    (match received t with
     | ReceiveRaises e => raise e
     | NoMessage => mret NextTurn
     | Message msg =>
         log_mavlink_message (call_env t) msg (py "RX");;
         mret NextTurn
     end)
    (fun e =>
       me ← get_self;
       (if json_logging_enabled me then print (JsonLoggerError e)
        else mret tt);;
       mret Break).

(** [while self.json_logging_enabled: ...] over the outcomes of the receive
    calls to come.  [Looping] is returned when these are used up with the
    loop still running. *)
Fixpoint capture_loop (turns : list Turn) : Py LoopState :=
  match turns with
  | [] => mret Looping
  | t :: rest =>
      me ← get_self;
      if negb (json_logging_enabled me) then mret Exited
      else
        flow ← loop_body t;
        match flow with
        | NextTurn => capture_loop rest
        | Break => mret Exited
        end
  end.

(** The function [json_logger_thread] run by the thread: connect, then
    loop. *)
Definition json_logger_thread (connect_result : option Exn)
    (turns : list Turn) : Py LoopState :=
  try_except
    (match connect_result with
     | Some e => raise e
     | None => mret tt
     end;;
     print JsonLoggerConnected;;
     capture_loop turns)
    (fun e => print (JsonLoggerConnectionFailed e);; mret Exited).

(** [MAVProxyWithJSON.start_json_logger]: the thread is created and started;
    what it does is [json_logger_thread], run after this call. *)
Definition start_json_logger (env : SetupEnv) : Py bool :=
  ok ← setup_json_logging env;
  if negb ok then mret false
  else
    update (with_self (set_json_logger (Some {| daemon := true |})));;
    mret true.

(** What [stop] meets: how closing the log file goes, whether signalling the
    forwarder raises, and when the forwarder exits. *)
Inductive WaitResult :=
| ExitsWith (rc : Z)
| TimeoutExpired
| WaitRaises (e : Exn).

Record StopEnv := {
  close_result : IoResult;
  terminate_result : option Exn;
  wait_result : WaitResult;
  kill_result : option Exn;
  returncode_after_kill : Z
}.

Definition signal_process (result : option Exn) : Py unit :=
  me ← get_self;
  match mavproxy_process me with
  | None => raise (none_has_no_attribute "send_signal")
  | Some p =>
      match returncode p with
      | Some _ => mret tt
      | None =>
          match result with
          | Some e => raise e
          | None => mret tt
          end
      end
  end.

Definition reap (rc : Z) : Py unit :=
  update (with_self (set_mavproxy_process (Some {| returncode := Some rc |}))).

(** [self.mavproxy_process.wait(timeout=5)] *)
Definition wait_timeout (result : WaitResult) : Py unit :=
  me ← get_self;
  match mavproxy_process me with
  | None => raise (none_has_no_attribute "wait")
  | Some p =>
      match returncode p with
      | Some _ => mret tt
      | None =>
          match result with
          | ExitsWith rc => reap rc
          | TimeoutExpired =>
              raise (Exception "TimeoutExpired" "timed out after 5 seconds")
          | WaitRaises e => raise e
          end
      end
  end.

(** [self.mavproxy_process.wait()] *)
Definition wait_forever (rc : Z) : Py unit :=
  me ← get_self;
  match mavproxy_process me with
  | None => raise (none_has_no_attribute "wait")
  | Some p =>
      match returncode p with
      | Some _ => mret tt
      | None => reap rc
      end
  end.

(** [MAVProxyWithJSON.stop] *)
Definition stop (env : StopEnv) : Py unit :=
  me ← get_self;
  (if json_logging_enabled me then
     update (with_self (set_json_logging_enabled false));;
     (if bool_decide (is_Some (json_log_file me)) then
        file_close (close_result env);;
        print JsonLoggingStopped
      else mret tt)
   else mret tt);;
  me ← get_self;
  if bool_decide (is_Some (mavproxy_process me)) then
    try_except
      (signal_process (terminate_result env);;
       try_except_class "TimeoutExpired"
         (wait_timeout (wait_result env))
         (signal_process (kill_result env);;
          wait_forever (returncode_after_kill env));;
       print MavproxyStopped)
      (fun e => print (ErrorStoppingMavproxy e))
  else mret tt.

End Logger.

(** ** What is observed of a log *)

Fixpoint lf_free (s : string) : bool :=
  match s with
  | EmptyString => true
  | String c rest => negb (Ascii.eqb c LF) && lf_free rest
  end.

(** The complete lines of a text, without their line feed, and what follows
    the last line feed. *)
Fixpoint split_lines (s : string) : list string * string :=
  match s with
  | EmptyString => ([], EmptyString)
  | String c rest =>
      let '(ls, tail) := split_lines rest in
      if Ascii.eqb c LF then (EmptyString :: ls, tail)
      else
        match ls with
        | [] => ([], String c tail)
        | l :: ls' => (String c l :: ls', tail)
        end
  end.

(** The messages among the turns of the loop, each with the clock reading of
    the call that logs it. *)
Fixpoint frames_of (turns : list Turn) : list (MAVLinkMessage * string) :=
  match turns with
  | [] => []
  | t :: rest =>
      match received t with
      | Message msg => (msg, utc_now_isoformat (call_env t)) :: frames_of rest
      | _ => frames_of rest
      end
  end.

(** Values that [make_json_serializable] hands back untouched. *)
Definition is_passed_through (v : PyVal) : bool :=
  match v with
  | PBytes _ | PByteArray _ | PDict _ | PList _ | PTuple _ => false
  | _ => true
  end.

(** The guard of [log_mavlink_message]: the object has a log file and
    logging is enabled. *)
Definition logging (w : World) : bool :=
  bool_decide (is_Some (json_log_file (self w)))
  && json_logging_enabled (self w).

(** Logging, into a file that is open. *)
Definition ready (w : World) : bool :=
  match json_log_file (self w) with
  | Some f => negb (closed f) && json_logging_enabled (self w)
  | None => false
  end.

(** The write and the flush of a call both succeed. *)
Definition io_ok (env : CallEnv) : bool :=
  match write_result env, flush_result env with
  | IoOk, IoOk => true
  | _, _ => false
  end.

Definition console_add (l : Line) (w : World) : World :=
  {| self := self w; files := files w; console := console w ++ [l] |}.

(** The name and the state of the log file of the object. *)
Definition file_state (w : World) : option (string * bool) :=
  (fun f => (name f, closed f)) <$> json_log_file (self w).

(** The name [setup_json_logging] gives to the log file. *)
Definition log_path (env : SetupEnv) (w : World) : string :=
  log_dir (self w) +:+ "/mavlink_messages_" +:+ local_now_strftime env
  +:+ ".jsonl".

(** What is on disk under the name of the log file. *)
Definition log_on_disk (w : World) : string :=
  match json_log_file (self w) with
  | Some f => contents (name f) (files w)
  | None => EmptyString
  end.

(** What the log file object still holds back. *)
Definition log_pending (w : World) : string :=
  match json_log_file (self w) with
  | Some f => pending f
  | None => EmptyString
  end.

(** Everything written to the log so far, flushed or not. *)
Definition log_text (w : World) : string := log_on_disk w +:+ log_pending w.

(** Documents, each followed by a line feed. *)
Fixpoint join_lines (docs : list string) : string :=
  match docs with
  | [] => EmptyString
  | d :: rest => d +:+ String LF (join_lines rest)
  end.


(** The forwarder, if one was started, has exited and been reaped. *)
Definition process_reaped (me : MAVProxyWithJSON) : bool :=
  match mavproxy_process me with
  | None => true
  | Some p => bool_decide (is_Some (returncode p))
  end.

(** ** Sample data *)

(** [float.__repr__] on the floats of the sample messages. *)
Definition sample_float_repr (bits : Z) : string :=
  if (bits =? 0x3FF8000000000000)%Z then "1.5" else "0.0".

(** A HEARTBEAT whose dictionary holds a string, an integer, a float, a
    binary blob with an invalid byte and a tuple. *)
Definition heartbeat (seq : Z) : MAVLinkMessage :=
  {| get_type := py "HEARTBEAT";
     get_msgId := 0;
     get_srcSystem := 1;
     get_srcComponent := 1;
     get_seq := seq;
     to_dict :=
       [ (KStr (py "mavpackettype"), PStr (py "HEARTBEAT"));
         (KStr (py "type"), PInt 2);
         (KStr (py "load"), PFloat 0x3FF8000000000000);
         (KStr (py "raw"), PByteArray [x50; x58; xff; x34]);
         (KStr (py "version"), PTuple [PInt 1; PBytes [xe2; x82; xac]]) ] |}.

(** A message whose dictionary holds a set next to a binary blob. *)
Definition odd_message : MAVLinkMessage :=
  {| get_type := py "ODD";
     get_msgId := 9;
     get_srcSystem := 1;
     get_srcComponent := 1;
     get_seq := 4;
     to_dict :=
       [ (KStr (py "raw"), PBytes [x41]);
         (KStr (py "flags"), PList [PInt 1; POther "set"]) ] |}.

Definition fresh_world : World :=
  {| self := init "udp:127.0.0.1:14550" 14551 14552 "logs";
     files := ∅;
     console := [] |}.

Definition sample_setup : SetupEnv :=
  {| local_now_strftime := "20240101_120000"; open_result := None |}.

Definition sample_log_name : string :=
  "logs/mavlink_messages_20240101_120000.jsonl".

Definition sample_call (now : string) : CallEnv :=
  {| utc_now_isoformat := now; write_result := IoOk; flush_result := IoOk |}.

Definition sample_turn (seq : Z) : Turn :=
  {| received := Message (heartbeat seq);
     call_env := sample_call "2024-01-01T12:00:00.000000+00:00" |}.

(** The world once [start_json_logger] has returned. *)
Definition started_world : World :=
  run (start_json_logger sample_setup) fresh_world.

Definition connection_refused : Exn :=
  Exception "OSError" "[Errno 98] Address already in use".

Definition bad_frame : Exn :=
  Exception "MAVError" "invalid MAVLink prefix".

Definition disk_full : Exn :=
  Exception "OSError" "[Errno 28] No space left on device".

(** A turn whose receive call raises, and a turn whose write fails after
    ten characters. *)
Definition bad_turn : Turn :=
  {| received := ReceiveRaises bad_frame;
     call_env := sample_call "2024-01-01T12:00:00.500000+00:00" |}.

Definition failing_turn (seq : Z) : Turn :=
  {| received := Message (heartbeat seq);
     call_env :=
       {| utc_now_isoformat := "2024-01-01T12:00:01.000000+00:00";
          write_result := IoError 10 disk_full;
          flush_result := IoOk |} |}.

(** A session with a forwarder process, and a [stop] during which the file
    closes and the forwarder exits in time. *)
Definition running_world : World :=
  with_self (set_mavproxy_process (Some {| returncode := None |}))
            started_world.

Definition sample_stop : StopEnv :=
  {| close_result := IoOk;
     terminate_result := None;
     wait_result := ExitsWith (-15);
     kill_result := None;
     returncode_after_kill := -9 |}.

Definition stopped_world : World := run (stop sample_stop) running_world.

Definition timeout_turn : Turn :=
  {| received := NoMessage;
     call_env := sample_call "2024-01-01T12:00:00.700000+00:00" |}.

(** A session whose log already holds a record. *)
Definition logged_world : World :=
  run (capture_loop sample_float_repr [sample_turn 7]) started_world.

(** A text between double quotes. *)
Definition quoted (s : string) : string :=
  String DQUOTE s +:+ String DQUOTE EmptyString.

(** ** More of what is observed of a run of the loop *)

(** A turn that brings no error from outside: a timeout, or a message whose
    write and flush succeed (whether or not its record can be serialized). *)
Definition undisturbed_turn (t : Turn) : bool :=
  match received t with
  | NoMessage => true
  | ReceiveRaises _ => false
  | Message _ => io_ok (call_env t)
  end.

(** What [json.dumps] makes of the record of each message among the turns. *)
Definition serializations (float_repr : Z -> string) (turns : list Turn)
    : list (Outcome string) :=
  map (fun frame => json_dumps float_repr
                      (json_entry (py frame.2) frame.1 (py "RX")))
      (frames_of turns).

(** The documents among them, and the exceptions among them. *)
Fixpoint documents (results : list (Outcome string)) : list string :=
  match results with
  | [] => []
  | Return d :: rest => d :: documents rest
  | Raise _ :: rest => documents rest
  end.

Fixpoint rejections (results : list (Outcome string)) : list Exn :=
  match results with
  | [] => []
  | Return _ :: rest => rejections rest
  | Raise e :: rest => e :: rejections rest
  end.

(** A [stop] during which nothing raises. *)
Definition quiet_stop (env : StopEnv) : bool :=
  match close_result env, terminate_result env, kill_result env,
        wait_result env with
  | IoOk, None, None, ExitsWith _ => true
  | IoOk, None, None, TimeoutExpired => true
  | _, _, _, _ => false
  end.

(** A turn whose message cannot be serialized, and a turn whose flush fails
    after twenty characters. *)
Definition odd_turn : Turn :=
  {| received := Message odd_message;
     call_env := sample_call "2024-01-01T12:00:00.800000+00:00" |}.

Definition flush_failing_turn (seq : Z) : Turn :=
  {| received := Message (heartbeat seq);
     call_env :=
       {| utc_now_isoformat := "2024-01-01T12:00:01.500000+00:00";
          write_result := IoOk;
          flush_result := IoError 20 disk_full |} |}.

(** A session whose file object holds back the end of a record. *)
Definition clogged_world : World :=
  run (capture_loop sample_float_repr [flush_failing_turn 5]) running_world.

(** Printable ASCII: from the space to the tilde. *)
Definition is_printable (c : ascii) : bool :=
  ((0x20 <=? N_of_ascii c) && (N_of_ascii c <=? 0x7E))%N.

Fixpoint printable (s : string) : bool :=
  match s with
  | EmptyString => true
  | String c rest => is_printable c && printable rest
  end.

(** ** The forwarder: [setup_logging], [start_mavproxy], [run] and [main]

    The main thread of the program.  Its state is the world of the logger
    together with everything printed on the console, by the logger or by the
    main thread, in order; the state of the logger thread; and whether
    [main] has installed its handler for the interrupt signal.  Paths are
    POSIX paths.  What the logger thread does while the main thread sleeps
    in the loop of [run] is given with each turn of that loop; an interrupt
    signal is taken into account in that loop only. *)

Module Forwarder.

(** A line printed by the main thread, or by the logger ([FromLogger]). *)
Inductive Printed :=
| FromLogger (l : Line)
| MavproxyLoggingTo (log_filename : string)
| StartingMavproxy
| CommandLine (text : string)
| MavproxyStarted
| Px4Connection (text : string)
| QgcConnection (text : string)
| JsonLoggerConnection (text : string)
| QgcSetupTitle
| QgcSetupOpen
| QgcSetupCommLinks
| QgcSetupAddUdp
| QgcSetupServerAddress
| QgcSetupPort (port : Z)
| QgcSetupConnect
| PressCtrlCToStop
| FailedToStartMavproxy
| MavproxyNotFound
| PleaseInstallMavproxy
| ErrorStartingMavproxy (e : Exn)
| MavproxyStoppedUnexpectedly
| StoppingMavproxy
| BannerRule
| BannerTitle
| BannerSeparatePorts
| BannerThroughMavproxy
| BlankLine
| StoppingForwarder.

(** The logger thread: not started, started but not yet run, in its loop, or
    finished. *)
Inductive ThreadState :=
| NoThread
| Created
| Capturing
| Ended.

Record Host := {
  world : World;
  stdout : list Printed;
  logger_thread : ThreadState;
  sigint_handler : bool
}.

(** How a statement of the main thread ends: normally, with an exception
    (an instance of [Exception]), with [KeyboardInterrupt], or with
    [SystemExit]. *)
Inductive Ending (A : Type) :=
| Finished (a : A)
| Failed (e : Exn)
| KeyboardInterrupt
| SystemExit (code : Z).

Arguments Finished {A} a.
Arguments Failed {A} e.
Arguments KeyboardInterrupt {A}.
Arguments SystemExit {A} code.

Definition Main (A : Type) : Type := Host -> Ending A * Host.

#[global] Instance Main_ret : MRet Main := fun A a h => (Finished a, h).

#[global] Instance Main_bind : MBind Main := fun A B f m h =>
  match m h with
  | (Finished a, h') => f a h'
  | (Failed e, h') => (Failed e, h')
  | (KeyboardInterrupt, h') => (KeyboardInterrupt, h')
  | (SystemExit code, h') => (SystemExit code, h')
  end.

Definition fail {A : Type} (e : Exn) : Main A := fun h => (Failed e, h).

(** [sys.exit(code)], and the arrival of [KeyboardInterrupt]. *)
Definition sys_exit {A : Type} (code : Z) : Main A :=
  fun h => (SystemExit code, h).

Definition keyboard_interrupt {A : Type} : Main A :=
  fun h => (KeyboardInterrupt, h).

Definition get_host : Main Host := fun h => (Finished h, h).

Definition emit (p : Printed) : Main unit := fun h =>
  (Finished tt,
   {| world := world h; stdout := stdout h ++ [p];
      logger_thread := logger_thread h;
      sigint_handler := sigint_handler h |}).

Definition set_logger_thread (s : ThreadState) : Main unit := fun h =>
  (Finished tt,
   {| world := world h; stdout := stdout h; logger_thread := s;
      sigint_handler := sigint_handler h |}).

Definition set_sigint_handler (b : bool) : Main unit := fun h =>
  (Finished tt,
   {| world := world h; stdout := stdout h;
      logger_thread := logger_thread h; sigint_handler := b |}).

(** A statement of the logger, run by the main thread or by the logger
    thread: what it adds to the console of its world is added to the
    console output. *)
Definition lift {A : Type} (m : Py A) : Main A := fun h =>
  let '(r, w') := m (world h) in
  let h' :=
    {| world := w';
       stdout := stdout h
                 ++ map FromLogger
                        (drop (length (console (world h))) (console w'));
       logger_thread := logger_thread h;
       sigint_handler := sigint_handler h |} in
  match r with
  | Return a => (Finished a, h')
  | Raise e => (Failed e, h')
  end.

(** [try: body  except cls: on_class  except Exception as e: on_other(e)] *)
Definition try_except_class_then {A : Type} (body : Main A) (cls : string)
    (on_class : Main A) (on_other : Exn -> Main A) : Main A := fun h =>
  match body h with
  | (Failed e, h') =>
      if decide (exn_class e = cls) then on_class h' else on_other e h'
  | r => r
  end.

(** [try: body  except KeyboardInterrupt: handler] *)
Definition try_except_keyboard_interrupt {A : Type} (body : Main A)
    (handler : Main A) : Main A := fun h =>
  match body h with
  | (KeyboardInterrupt, h') => handler h'
  | r => r
  end.

(** [posixpath.join] of a path and a relative name. *)
Definition ends_with_slash (s : string) : bool :=
  match rev (list_ascii_of_string s) with
  | c :: _ => Ascii.eqb c "/"%char
  | [] => false
  end.

Definition path_join (a b : string) : string :=
  if (String.length a =? 0)%nat || ends_with_slash a then a +:+ b
  else a +:+ "/" +:+ b.

(** What [start_mavproxy] meets: the local time as [strftime] prints it,
    the directory of the script, which paths exist, how spawning a command
    goes, whether the forwarder has exited three seconds later (and with
    which status), and what [setup_json_logging] meets. *)
Record StartEnv := {
  tlog_now_strftime : string;
  script_dir : string;
  path_exists : string -> bool;
  popen_result : list string -> option Exn;
  exited_after_start : option Z;
  json_setup : SetupEnv
}.

(** [MAVProxyWithJSON.setup_logging] *)
Definition setup_logging (now : string) : Main string :=
  h ← get_host;
  let timestamp := now in
  let log_filename :=
    log_dir (self (world h)) +:+ "/mavproxy_log_" +:+ timestamp +:+ ".tlog" in
  emit (MavproxyLoggingTo log_filename);;
  mret log_filename.

Definition udp_local (port : Z) : string :=
  "udp:127.0.0.1:" +:+ int_repr port.

(** The command line built in [start_mavproxy]. *)
Definition mavproxy_command (me : MAVProxyWithJSON)
    (mavproxy_cmd log_filename : string) : list string :=
  [ mavproxy_cmd;
    "--master"; px4_connection me;
    "--out"; udp_local (qgc_port me);
    "--out"; udp_local (json_port me);
    "--logfile"; log_filename;
    "--daemon" ].

(** [subprocess.Popen(cmd, ...)], assigned to [self.mavproxy_process]. *)
Definition popen (result : option Exn) : Main unit :=
  match result with
  | Some e => fail e
  | None =>
      lift (update (with_self
                      (set_mavproxy_process
                         (Some {| returncode := None |}))))
  end.

(** [self.mavproxy_process.poll()]: the status of a forwarder that has
    exited, which is then reaped, or [None]. *)
Definition poll (exited : option Z) : Main (option Z) :=
  h ← get_host;
  match mavproxy_process (self (world h)) with
  | None => fail (none_has_no_attribute "poll")
  | Some p =>
      match returncode p with
      | Some rc => mret (Some rc)
      | None =>
          match exited with
          | Some rc => lift (reap rc);; mret (Some rc)
          | None => mret None
          end
      end
  end.

(** [self.start_json_logger()], which starts the thread when it returns
    [True]. *)
Definition start_json_logger_thread (env : SetupEnv) : Main bool :=
  ok ← lift (start_json_logger env);
  (if (ok : bool) then set_logger_thread Created else mret tt);;
  mret ok.

(** [MAVProxyWithJSON.start_mavproxy] *)
Definition start_mavproxy (env : StartEnv) : Main bool :=
  log_filename ← setup_logging (tlog_now_strftime env);
  let venv_path := path_join (script_dir env) "mavproxy_env" in
  let mavproxy_cmd :=
    if path_exists env venv_path
    then path_join (path_join venv_path "bin") "mavproxy.py"
    else "mavproxy.py" in
  h ← get_host;
  let me := self (world h) in
  let cmd := mavproxy_command me mavproxy_cmd log_filename in
  emit StartingMavproxy;;
  emit (CommandLine (String.concat " " cmd));;
  try_except_class_then
    (popen (popen_result env cmd);;
     alive ← poll (exited_after_start env);
     match alive with
     | None =>
         emit MavproxyStarted;;
         emit (Px4Connection (px4_connection me));;
         emit (QgcConnection (udp_local (qgc_port me)));;
         emit (JsonLoggerConnection (udp_local (json_port me)));;
         emit (MavproxyLoggingTo log_filename);;
         (if json_logging_enabled me
          then start_json_logger_thread (json_setup env);; mret tt
          else mret tt);;
         emit QgcSetupTitle;;
         emit QgcSetupOpen;;
         emit QgcSetupCommLinks;;
         emit QgcSetupAddUdp;;
         emit QgcSetupServerAddress;;
         emit (QgcSetupPort (qgc_port me));;
         emit QgcSetupConnect;;
         emit PressCtrlCToStop;;
         mret true
     | Some _ =>
         emit FailedToStartMavproxy;;
         mret false
     end)
    "FileNotFoundError"
    (emit MavproxyNotFound;;
     emit PleaseInstallMavproxy;;
     mret false)
    (fun e => emit (ErrorStartingMavproxy e);; mret false).

(** What the logger thread does during one sleep of the main thread: how
    its connection goes, if it has not connected yet, and the turns of its
    loop it gets through. *)
Record Activity := {
  connect_result : option Exn;
  turns : list Turn
}.

Definition thread_state_of (s : LoopState) : ThreadState :=
  match s with
  | Looping => Capturing
  | Exited => Ended
  end.

Definition logger_runs (float_repr : Z -> string) (act : Activity)
    : Main unit :=
  h ← get_host;
  match logger_thread h with
  | Created =>
      s ← lift (json_logger_thread float_repr (connect_result act)
                  (turns act));
      set_logger_thread (thread_state_of s)
  | Capturing =>
      s ← lift (capture_loop float_repr (turns act));
      set_logger_thread (thread_state_of s)
  | NoThread | Ended => mret tt
  end.

(** The function [signal_handler] of [main]. *)
Definition signal_handler (env : StopEnv) : Main unit :=
  emit StoppingForwarder;;
  lift (stop env);;
  sys_exit 0.

(** An interrupt signal reaches the main thread: the handler of [main] runs
    if it is installed, otherwise [KeyboardInterrupt] is raised. *)
Definition sigint (env : StopEnv) : Main unit :=
  h ← get_host;
  if sigint_handler h then signal_handler env else keyboard_interrupt.

(** One turn of the loop of [run]: what the logger thread does during
    [time.sleep(1)], whether an interrupt signal arrives at the end of the
    sleep, and what [poll] then finds. *)
Record Tick := {
  meanwhile : Activity;
  interrupted : bool;
  exited : option Z
}.

Inductive RunState :=
| StillRunning
| Returned.

(** [while True: ...] in [run], over the turns to come; [StillRunning] when
    these are used up with the loop still running. *)
Fixpoint run_loop (float_repr : Z -> string) (on_stop : StopEnv)
    (ticks : list Tick) : Main RunState :=
  match ticks with
  | [] => mret StillRunning
  | t :: rest =>
      logger_runs float_repr (meanwhile t);;
      (if interrupted t then sigint on_stop else mret tt);;
      rc ← poll (exited t);
      match rc with
      | Some _ => emit MavproxyStoppedUnexpectedly;; mret Returned
      | None => run_loop float_repr on_stop rest
      end
  end.

(** [MAVProxyWithJSON.run] *)
Definition run (float_repr : Z -> string) (env : StartEnv)
    (on_stop : StopEnv) (ticks : list Tick) : Main RunState :=
  ok ← start_mavproxy env;
  if negb ok then mret Returned
  else
    try_except_keyboard_interrupt
      (run_loop float_repr on_stop ticks)
      (emit StoppingMavproxy;;
       lift (stop on_stop);;
       mret Returned).

(** What [main] meets: how creating the directory of the logs goes, and
    what [run] meets. *)
Record MainEnv := {
  makedirs_result : option Exn;
  start_env : StartEnv;
  stop_env : StopEnv
}.

(** [MAVProxyWithJSON()] with the default arguments. *)
Definition new_forwarder (makedirs : option Exn) : Main unit :=
  match makedirs with
  | Some e => fail e
  | None =>
      lift (update (with_self
                      (fun _ => init "udp:127.0.0.1:14550" 14551 14552
                                     "logs")))
  end.

(** [main] *)
Definition main (float_repr : Z -> string) (env : MainEnv)
    (ticks : list Tick) : Main RunState :=
  emit BannerRule;;
  emit BannerTitle;;
  emit BannerRule;;
  emit BannerSeparatePorts;;
  emit BannerThroughMavproxy;;
  emit BlankLine;;
  new_forwarder (makedirs_result env);;
  set_sigint_handler true;;
  run float_repr (start_env env) (stop_env env) ticks.

End Forwarder.

(** ** What is observed of the forwarder *)

(** The forwarder has been spawned and has not been found exited. *)
Definition forwarder_running (me : MAVProxyWithJSON) : bool :=
  match mavproxy_process me with
  | Some p => negb (bool_decide (is_Some (returncode p)))
  | None => false
  end.

(** A second of the loop of [run] without interrupt, after which the
    forwarder is still there. *)
Definition quiet_tick (t : Forwarder.Tick) : bool :=
  negb (Forwarder.interrupted t)
  && negb (bool_decide (is_Some (Forwarder.exited t))).

(** What the logger thread and [poll] never change between two worlds:
    the flag and the state of the log file object. *)
Definition logging_kept (w w' : World) : Prop :=
  json_logging_enabled (self w') = json_logging_enabled (self w)
  /\ file_state w' = file_state w.

(** The command can be spawned and the forwarder is still running three
    seconds later. *)
Definition forwarder_starts (env : Forwarder.StartEnv) : Prop :=
  (forall cmd, Forwarder.popen_result env cmd = None)
  /\ Forwarder.exited_after_start env = None.

(** ** Sample runs of the forwarder *)

Definition fresh_host : Forwarder.Host :=
  {| Forwarder.world := fresh_world;
     Forwarder.stdout := [];
     Forwarder.logger_thread := Forwarder.NoThread;
     Forwarder.sigint_handler := false |}.

(** No virtual environment next to the script; the command is found and
    the forwarder is still running three seconds later. *)
Definition sample_start : Forwarder.StartEnv :=
  {| Forwarder.tlog_now_strftime := "20240101_115955";
     Forwarder.script_dir := "/opt/tap";
     Forwarder.path_exists := fun _ => false;
     Forwarder.popen_result := fun _ => None;
     Forwarder.exited_after_start := None;
     Forwarder.json_setup := sample_setup |}.

Definition file_not_found : Exn :=
  Exception "FileNotFoundError"
            "[Errno 2] No such file or directory: 'mavproxy.py'".

Definition permission_denied : Exn :=
  Exception "PermissionError" "[Errno 13] Permission denied".

(** The command is not found. *)
Definition start_without_mavproxy : Forwarder.StartEnv :=
  {| Forwarder.tlog_now_strftime := "20240101_115955";
     Forwarder.script_dir := "/opt/tap";
     Forwarder.path_exists := fun _ => false;
     Forwarder.popen_result := fun _ => Some file_not_found;
     Forwarder.exited_after_start := None;
     Forwarder.json_setup := sample_setup |}.

(** The forwarder runs but the JSON log cannot be opened. *)
Definition start_without_log : Forwarder.StartEnv :=
  {| Forwarder.tlog_now_strftime := "20240101_115955";
     Forwarder.script_dir := "/opt/tap";
     Forwarder.path_exists := fun _ => false;
     Forwarder.popen_result := fun _ => None;
     Forwarder.exited_after_start := None;
     Forwarder.json_setup :=
       {| local_now_strftime := "20240101_120000";
          open_result := Some permission_denied |} |}.

(** A second of the loop of [run] during which the logger thread connects
    and logs a heartbeat, and seconds that end with the forwarder gone, or
    with an interrupt. *)
Definition busy_tick (seq : Z) : Forwarder.Tick :=
  {| Forwarder.meanwhile :=
       {| Forwarder.connect_result := None;
          Forwarder.turns := [sample_turn seq] |};
     Forwarder.interrupted := false;
     Forwarder.exited := None |}.

Definition last_tick : Forwarder.Tick :=
  {| Forwarder.meanwhile :=
       {| Forwarder.connect_result := None; Forwarder.turns := [] |};
     Forwarder.interrupted := false;
     Forwarder.exited := Some 1%Z |}.

Definition interrupt_tick : Forwarder.Tick :=
  {| Forwarder.meanwhile :=
       {| Forwarder.connect_result := None; Forwarder.turns := [] |};
     Forwarder.interrupted := true;
     Forwarder.exited := None |}.

Definition sample_main : Forwarder.MainEnv :=
  {| Forwarder.makedirs_result := None;
     Forwarder.start_env := sample_start;
     Forwarder.stop_env := sample_stop |}.

(** The forwarder exits at once. *)
Definition start_exiting_early : Forwarder.StartEnv :=
  {| Forwarder.tlog_now_strftime := "20240101_115955";
     Forwarder.script_dir := "/opt/tap";
     Forwarder.path_exists := fun _ => false;
     Forwarder.popen_result := fun _ => None;
     Forwarder.exited_after_start := Some 2%Z;
     Forwarder.json_setup := sample_setup |}.

(** A setup during which the log file cannot be opened. *)
Definition failing_setup : SetupEnv :=
  {| local_now_strftime := "20240101_120000";
     open_result := Some permission_denied |}.

(** A [stop] during which closing the file fails, one during which the
    forwarder does not exit in time, and one during which it cannot be
    signalled. *)
Definition failing_stop : StopEnv :=
  {| close_result := IoError 0 disk_full;
     terminate_result := None;
     wait_result := ExitsWith (-15);
     kill_result := None;
     returncode_after_kill := -9 |}.

Definition slow_stop : StopEnv :=
  {| close_result := IoOk;
     terminate_result := None;
     wait_result := TimeoutExpired;
     kill_result := None;
     returncode_after_kill := -9 |}.

Definition refused_stop : StopEnv :=
  {| close_result := IoOk;
     terminate_result := Some permission_denied;
     wait_result := ExitsWith (-15);
     kill_result := None;
     returncode_after_kill := -9 |}.

(** A text with an ASCII letter, the euro sign and an emoji, and its UTF-8
    encoding. *)
Definition sample_text : pystr := [0x50; 0x20AC; 0x1F600]%N.

Definition sample_text_utf8 : list byte :=
  [x50; xe2; x82; xac; xf0; x9f; x98; x80].

(** The directory of the logs cannot be created; and a session at the end
    of which closing the log file fails. *)
Definition main_without_log_dir : Forwarder.MainEnv :=
  {| Forwarder.makedirs_result := Some permission_denied;
     Forwarder.start_env := sample_start;
     Forwarder.stop_env := sample_stop |}.

Definition main_failing_close : Forwarder.MainEnv :=
  {| Forwarder.makedirs_result := None;
     Forwarder.start_env := sample_start;
     Forwarder.stop_env := failing_stop |}.

(** * Properties *)

(** Induction over values that reaches the elements of containers. *)
Lemma PyVal_nested_ind (P : PyVal -> Prop) :
  P PNone ->
  (forall b, P (PBool b)) ->
  (forall z, P (PInt z)) ->
  (forall bits, P (PFloat bits)) ->
  (forall s, P (PStr s)) ->
  (forall b, P (PBytes b)) ->
  (forall b, P (PByteArray b)) ->
  (forall items, Forall (fun kv => P (snd kv)) items -> P (PDict items)) ->
  (forall elts, Forall P elts -> P (PList elts)) ->
  (forall elts, Forall P elts -> P (PTuple elts)) ->
  (forall cls, P (POther cls)) ->
  forall v, P v.
Proof.
  intros HN HB HI HF HS HBy HBa HD HL HT HO.
  fix IH 1.
  intros [ | b | z | bits | s | b | b | items | elts | elts | cls ].
  - exact HN.
  - apply HB.
  - apply HI.
  - apply HF.
  - apply HS.
  - apply HBy.
  - apply HBa.
  - apply HD. induction items as [ | [k v] items IHitems ]; constructor.
    + apply IH.
    + exact IHitems.
  - apply HL. induction elts as [ | v elts IHelts ]; constructor.
    + apply IH.
    + exact IHelts.
  - apply HT. induction elts as [ | v elts IHelts ]; constructor.
    + apply IH.
    + exact IHelts.
  - apply HO.
Qed.

(** ** The decoder *)

Ltac bool_hyps :=
  repeat match goal with
  | H : (_ || _) = false |- _ => apply orb_false_iff in H; destruct H
  | H : (_ && _) = true |- _ => apply andb_true_iff in H; destruct H
  | H : (_ || _) = true |- _ => apply orb_true_iff in H; destruct H
  | H : (_ && _) = false |- _ => apply andb_false_iff in H; destruct H
  | H : negb _ = false |- _ => apply negb_false_iff in H
  | H : negb _ = true |- _ => apply negb_true_iff in H
  | H : (if ?b then _ else _) = _ |- _ => destruct b eqn:?
  | H : (_ <? _)%N = true |- _ => apply N.ltb_lt in H
  | H : (_ <? _)%N = false |- _ => apply N.ltb_ge in H
  | H : (_ <=? _)%N = true |- _ => apply N.leb_le in H
  | H : (_ <=? _)%N = false |- _ => apply N.leb_gt in H
  | H : (_ =? _)%N = true |- _ => apply N.eqb_eq in H
  | H : (_ =? _)%N = false |- _ => apply N.eqb_neq in H
  end.

Lemma is_scalar_value_spec (c : N) :
  is_scalar_value c = true <->
  (c < 0xD800 \/ (0xE000 <= c /\ c < 0x110000))%N.
Proof.
  unfold is_scalar_value.
  rewrite orb_true_iff, andb_true_iff, N.ltb_lt, N.leb_le, N.ltb_lt.
  reflexivity.
Qed.



(** ASCII bytes decode to themselves. *)
Lemma utf8_decode_replace_ascii (s : list byte) :
  Forall (fun b => (Byte.to_N b < 0x80)%N) s ->
  utf8_decode_replace s = map Byte.to_N s.
Proof.
  induction 1 as [ | b s Hb _ IH ]; [ reflexivity | ].
  cbn [utf8_decode_replace map].
  apply N.ltb_lt in Hb. rewrite Hb, IH. reflexivity.
Qed.

Ltac div_lia := zify; Z.to_euclidean_division_equations; lia.

(** The well-formed encoding of a scalar value decodes to it. *)
Lemma utf8_decode_replace_encoded (c : N) (bs rest : list byte) :
  is_scalar_value c = true ->
  map Byte.to_N bs = utf8_encode_char c ->
  utf8_decode_replace (bs ++ rest) = c :: utf8_decode_replace rest.
Proof.
  intros Hc Henc. apply is_scalar_value_spec in Hc.
  unfold utf8_encode_char in Henc.
  repeat match type of Henc with
  | context [if ?b then _ else _] => destruct b eqn:?
  end; bool_hyps;
  repeat (destruct bs as [ | ? bs ]; try discriminate Henc);
  cbn [map] in Henc; injection Henc as ?;
  cbn [app utf8_decode_replace]; unfold is_continuation_byte;
  repeat match goal with
  | H : Byte.to_N _ = _ |- _ => rewrite H; clear H
  end.
  all: repeat match goal with
  | |- context [if ?b then _ else _] =>
      destruct b eqn:?; bool_hyps; try (exfalso; div_lia)
  end.
  all: f_equal; div_lia.
Qed.

(** Decoding inverts encoding: valid UTF-8 is decoded without loss. *)
Lemma utf8_decode_replace_utf8_encode (s : pystr) :
  Forall (fun c => is_scalar_value c = true) s ->
  forall bs : list byte,
    map Byte.to_N bs = utf8_encode s -> utf8_decode_replace bs = s.
Proof.
  induction 1 as [ | c s Hc _ IH ]; intros bs Hbs.
  - destruct bs; [ reflexivity | discriminate Hbs ].
  - cbn [utf8_encode flat_map] in Hbs.
    apply List.map_eq_app in Hbs as (bs1 & bs2 & -> & H1 & H2).
    rewrite (utf8_decode_replace_encoded c bs1 bs2 Hc H1).
    rewrite (IH bs2 H2). reflexivity.
Qed.

(** ** The normalizer *)

Lemma dict_get_map (f : PyVal -> PyVal) (k : PyKey)
    (items : list (PyKey * PyVal)) :
  dict_get k (map (fun kv => (fst kv, f (snd kv))) items)
  = f <$> dict_get k items.
Proof.
  induction items as [ | [k' v] items IH ]; [ reflexivity | ].
  cbn [map dict_get fst snd].
  destruct (decide (k' = k)); [ reflexivity | exact IH ].
Qed.

Lemma nth_error_map_fmap {A B : Type} (f : A -> B) (l : list A) (i : nat) :
  nth_error (map f l) i = f <$> nth_error l i.
Proof.
  revert i. induction l as [ | a l IH ]; intros [ | i ]; try reflexivity.
  apply IH.
Qed.

(** The value at any position of the normalized tree is the normalized value
    of that position. *)
Lemma at_path_make_json_serializable (p : list Subscript) :
  forall v : PyVal,
    at_path p (make_json_serializable v)
    = make_json_serializable <$> at_path p v.
Proof.
  induction p as [ | [k | i] p IH ]; intros v.
  - reflexivity.
  - destruct v; try reflexivity.
    cbn [make_json_serializable at_path].
    rewrite dict_get_map.
    destruct (dict_get k items) as [ v' | ]; [ apply IH | reflexivity ].
  - destruct v; try reflexivity;
      cbn [make_json_serializable at_path];
      rewrite nth_error_map_fmap;
      (destruct (nth_error elts i) as [ v' | ]; [ apply IH | reflexivity ]).
Qed.




Lemma map_map_Forall_eq {A B C : Type} (f : A -> B) (g : B -> C) (h : A -> C)
    (l : list A) :
  Forall (fun a => g (f a) = h a) l -> map g (map f l) = map h l.
Proof.
  induction 1 as [ | a l Ha _ IH ]; [ reflexivity | ].
  cbn [map]. rewrite Ha, IH. reflexivity.
Qed.



(** X1. Normalizing a normalized tree changes nothing: the normalizer is
    idempotent on every value. *)
Lemma make_json_serializable_idempotent (v : PyVal) :
  make_json_serializable (make_json_serializable v)
  = make_json_serializable v.
Proof.
  induction v as [ | | | | | | | items IH | elts IH | elts IH | ]
    using PyVal_nested_ind; cbn [make_json_serializable];
    try reflexivity; f_equal; apply map_map_Forall_eq.
  - eapply Forall_impl; [ exact IH | ].
    intros [k v] Hv. cbn [fst snd] in *. rewrite Hv. reflexivity.
  - exact IH.
  - exact IH.
Qed.


Lemma make_json_serializable_passed_through (v : PyVal) :
  is_passed_through v = true -> make_json_serializable v = v.
Proof. destruct v; simpl; congruence. Qed.




(** ** The payload of a log record *)



(** The sample message, normalized. *)
Example heartbeat_payload :
  make_json_serializable (PDict (to_dict (heartbeat 1)))
  = PDict [ (KStr (py "mavpackettype"), PStr (py "HEARTBEAT"));
            (KStr (py "type"), PInt 2);
            (KStr (py "load"), PFloat 0x3FF8000000000000);
            (KStr (py "raw"), PStr [0x50; 0x58; 0xFFFD; 0x34]%N);
            (KStr (py "version"), PList [PInt 1; PStr [0x20AC]%N]) ].
Proof. reflexivity. Qed.



(** ** Text without line feeds *)

Lemma lf_free_app (a b : string) :
  lf_free (a +:+ b) = lf_free a && lf_free b.
Proof.
  induction a as [ | c a IH ]; [ reflexivity | ].
  change (negb (Ascii.eqb c LF) && lf_free (a +:+ b)
          = negb (Ascii.eqb c LF) && lf_free a && lf_free b).
  rewrite IH, andb_assoc. reflexivity.
Qed.

Lemma lf_free_concat (sep : string) (parts : list string) :
  lf_free sep = true ->
  Forall (fun s => lf_free s = true) parts ->
  lf_free (String.concat sep parts) = true.
Proof.
  intros Hsep. induction 1 as [ | s parts Hs Hparts IH ]; [ reflexivity | ].
  cbn [String.concat]. destruct parts as [ | s' parts ]; [ exact Hs | ].
  change (lf_free (s +:+ sep +:+ String.concat sep (s' :: parts)) = true).
  rewrite !lf_free_app, Hs, Hsep, IH. reflexivity.
Qed.

Lemma hex_digit_not_lf (d : N) : Ascii.eqb (hex_digit d) LF = false.
Proof.
  unfold hex_digit. generalize (N.to_nat d) as n. intros n.
  do 16 (destruct n as [ | n ]; [ reflexivity | ]).
  destruct n; reflexivity.
Qed.

Lemma lf_free_hex4 (n : N) : lf_free (hex4 n) = true.
Proof.
  unfold hex4. cbn [lf_free]. rewrite !hex_digit_not_lf. reflexivity.
Qed.

Lemma printable_not_lf (c : N) :
  (0x20 <= c)%N -> (c <= 0x7E)%N -> Ascii.eqb (ascii_of_N c) LF = false.
Proof.
  intros Hlo Hhi. apply Ascii.eqb_neq. intros Heq.
  apply (f_equal N_of_ascii) in Heq.
  rewrite N_ascii_embedding in Heq by lia.
  change (N_of_ascii LF) with 10%N in Heq. lia.
Qed.

Lemma lf_free_escape_char (c : N) : lf_free (escape_char c) = true.
Proof.
  unfold escape_char.
  repeat match goal with
  | |- context [if ?b then _ else _] => destruct b eqn:?
  end;
  rewrite ?lf_free_app, ?lf_free_hex4; try reflexivity.
  bool_hyps. cbn [lf_free]. rewrite printable_not_lf by assumption.
  reflexivity.
Qed.

Lemma lf_free_py_encode_basestring_ascii (s : pystr) :
  lf_free (py_encode_basestring_ascii s) = true.
Proof.
  unfold py_encode_basestring_ascii. cbn [lf_free].
  rewrite lf_free_app, lf_free_concat; [ reflexivity | reflexivity | ].
  apply Forall_map, Forall_forall. intros c _. apply lf_free_escape_char.
Qed.

Lemma lf_free_string_of_uint (d : Decimal.uint) :
  lf_free (NilEmpty.string_of_uint d) = true.
Proof. induction d; cbn [NilEmpty.string_of_uint lf_free]; auto. Qed.

Lemma lf_free_int_repr (z : Z) : lf_free (int_repr z) = true.
Proof.
  unfold int_repr, NilZero.string_of_int, NilZero.string_of_uint.
  destruct (Z.to_int z) as [ d | d ]; destruct d;
    cbn [lf_free]; rewrite ?(lf_free_string_of_uint (_ d)); try reflexivity;
    apply (lf_free_string_of_uint (_ d)).
Qed.

(** ** The encoder *)

Lemma Outcome_bind_Return_inv {A B : Type} (m : Outcome A)
    (f : A -> Outcome B) (b : B) :
  m ≫= f = Return b -> exists a, m = Return a /\ f a = Return b.
Proof. destruct m as [ a | e ]; [ eauto | discriminate ]. Qed.

Lemma collect_map_Return {A B : Type} (f : A -> Outcome B) (l : list A)
    (parts : list B) :
  collect (map f l) = Return parts ->
  Forall2 (fun a p => f a = Return p) l parts.
Proof.
  revert parts. induction l as [ | a l IH ]; intros parts Hc.
  - injection Hc as <-. constructor.
  - cbn [map collect] in Hc. destruct (f a) as [ b | e ] eqn:Hfa;
      [ | discriminate ].
    destruct (collect (map f l)) as [ l' | e ]; [ | discriminate ].
    injection Hc as <-. constructor; [ exact Hfa | apply IH; reflexivity ].
Qed.


Lemma collect_map_some_raise {A B : Type} (f : A -> Outcome B) (l : list A)
    (a : A) (e : Exn) :
  In a l -> f a = Raise e -> exists e', collect (map f l) = Raise e'.
Proof.
  intros Hin Hfa. induction l as [ | a' l IH ]; [ destruct Hin | ].
  cbn [map collect]. destruct (f a') as [ b | e1 ] eqn:Hfa'; [ | eauto ].
  destruct Hin as [ -> | Hin ]; [ congruence | ].
  destruct (IH Hin) as [e' ->]. eauto.
Qed.

Section EncoderProperties.

Variable float_repr : Z -> string.

Hypothesis float_repr_lf_free : forall bits, lf_free (float_repr bits) = true.

Lemma lf_free_floatstr (bits : Z) : lf_free (floatstr float_repr bits) = true.
Proof.
  unfold floatstr.
  repeat match goal with
  | |- context [if ?b then _ else _] => destruct b
  end; try reflexivity.
  apply float_repr_lf_free.
Qed.

(** A serialized document is one line. *)
Lemma lf_free_json_dumps (v : PyVal) :
  forall text, json_dumps float_repr v = Return text -> lf_free text = true.
Proof.
  induction v as [ | b | z | bits | s | b | b | items IH | elts IH | elts IH
                 | cls ] using PyVal_nested_ind;
    cbn [json_dumps]; intros text Htext; try discriminate Htext.
  - injection Htext as <-. reflexivity.
  - destruct b; injection Htext as <-; reflexivity.
  - injection Htext as <-. apply lf_free_int_repr.
  - injection Htext as <-. apply lf_free_floatstr.
  - injection Htext as <-. apply lf_free_py_encode_basestring_ascii.
  - apply Outcome_bind_Return_inv in Htext as (parts & Hc & Htext).
    injection Htext as <-.
    apply collect_map_Return in Hc.
    rewrite !lf_free_app.
    rewrite lf_free_concat; [ reflexivity | reflexivity | ].
    clear -IH Hc. induction Hc as [ | [k v] p items parts Hp _ IHc ];
      constructor.
    + apply Forall_inv in IH. cbn [fst snd] in *.
      apply Outcome_bind_Return_inv in Hp as (kt & _ & Hp).
      apply Outcome_bind_Return_inv in Hp as (vt & Hvt & Hp).
      injection Hp as <-.
      rewrite !lf_free_app, lf_free_py_encode_basestring_ascii.
      rewrite (IH vt Hvt). reflexivity.
    + apply IHc. eapply Forall_inv_tail, IH.
  - apply Outcome_bind_Return_inv in Htext as (parts & Hc & Htext).
    injection Htext as <-.
    apply collect_map_Return in Hc.
    rewrite !lf_free_app.
    rewrite lf_free_concat; [ reflexivity | reflexivity | ].
    clear -IH Hc. induction Hc as [ | v p elts parts Hp _ IHc ]; constructor.
    + apply (Forall_inv IH), Hp.
    + apply IHc. eapply Forall_inv_tail, IH.
  - apply Outcome_bind_Return_inv in Htext as (parts & Hc & Htext).
    injection Htext as <-.
    apply collect_map_Return in Hc.
    rewrite !lf_free_app.
    rewrite lf_free_concat; [ reflexivity | reflexivity | ].
    clear -IH Hc. induction Hc as [ | v p elts parts Hp _ IHc ]; constructor.
    + apply (Forall_inv IH), Hp.
    + apply IHc. eapply Forall_inv_tail, IH.
Qed.



Lemma dict_get_In (k : PyKey) (items : list (PyKey * PyVal)) (v : PyVal) :
  dict_get k items = Some v -> In (k, v) items.
Proof.
  induction items as [ | [k' v'] items IH ]; [ discriminate | ].
  cbn [dict_get]. destruct (decide (k' = k)) as [ -> | _ ].
  - intros [= ->]. left. reflexivity.
  - intros Hget. right. exact (IH Hget).
Qed.

(** A value that cannot be serialized makes the serialization of every tree
    that holds it raise. *)
Lemma json_dumps_raises_at_path (p : list Subscript) :
  forall (v x : PyVal) (e : Exn),
    at_path p v = Some x ->
    json_dumps float_repr x = Raise e ->
    exists e', json_dumps float_repr v = Raise e'.
Proof.
  induction p as [ | [k | i] p IH ]; intros v x e Hat Hx.
  - cbn in Hat. injection Hat as ->. eauto.
  - destruct v; try discriminate Hat. cbn [at_path] in Hat.
    destruct (dict_get k items) as [ v1 | ] eqn:Hget; [ | discriminate ].
    destruct (IH v1 x e Hat Hx) as [e1 He1].
    apply dict_get_In in Hget. cbn [json_dumps].
    match goal with
    | |- context [collect (map ?f items)] => set (item := f)
    end.
    assert (exists e2, item (k, v1) = Raise e2) as [e2 He2].
    { subst item. cbn [fst snd].
      destruct (json_key float_repr k) as [ kt | ek ]; [ | cbn; eauto ].
      cbn. rewrite He1. cbn. eauto. }
    destruct (collect_map_some_raise item items (k, v1) e2 Hget He2)
      as [e' ->].
    cbn. eauto.
  - destruct v; try discriminate Hat; cbn [at_path] in Hat;
      (destruct (nth_error elts i) as [ v1 | ] eqn:Hnth; [ | discriminate ]);
      destruct (IH v1 x e Hat Hx) as [e1 He1];
      apply nth_error_In in Hnth; cbn [json_dumps];
      destruct (collect_map_some_raise (json_dumps float_repr) elts v1 e1
                  Hnth He1) as [e' ->];
      cbn; eauto.
Qed.

End EncoderProperties.

(** ** Strings and files *)

Lemma string_app_assoc (a b c : string) : (a +:+ b) +:+ c = a +:+ b +:+ c.
Proof.
  induction a as [ | x a IH ]; [ reflexivity | ].
  change (String x ((a +:+ b) +:+ c) = String x (a +:+ b +:+ c)).
  rewrite IH. reflexivity.
Qed.

Lemma string_app_nil_r (a : string) : a +:+ EmptyString = a.
Proof.
  induction a as [ | x a IH ]; [ reflexivity | ].
  change (String x (a +:+ EmptyString) = String x a). rewrite IH.
  reflexivity.
Qed.

Lemma contents_append_to (path data : string) (fs : gmap string string) :
  contents path (append_to path data fs) = contents path fs +:+ data.
Proof. unfold contents, append_to. rewrite lookup_insert_eq. reflexivity. Qed.

Lemma contents_append_to_ne (path path' data : string)
    (fs : gmap string string) :
  path <> path' ->
  contents path' (append_to path data fs) = contents path' fs.
Proof.
  intros Hne. unfold contents, append_to.
  rewrite lookup_insert_ne by exact Hne. reflexivity.
Qed.

(** Splitting the lines of documents joined by line feeds gives the
    documents back, with nothing left over. *)
Lemma split_lines_cons (d rest : string) :
  lf_free d = true ->
  split_lines (d +:+ String LF rest)
  = (d :: fst (split_lines rest), snd (split_lines rest)).
Proof.
  induction d as [ | c d IH ]; intros Hd.
  - change (split_lines (String LF rest)
            = ([EmptyString] ++ fst (split_lines rest),
               snd (split_lines rest))).
    cbn [split_lines]. destruct (split_lines rest) as [ls tail].
    reflexivity.
  - cbn [lf_free] in Hd. apply andb_true_iff in Hd as [Hc Hd].
    apply negb_true_iff in Hc.
    change (split_lines (String c (d +:+ String LF rest))
            = (String c d :: fst (split_lines rest),
               snd (split_lines rest))).
    cbn [split_lines]. rewrite (IH Hd), Hc. reflexivity.
Qed.

Lemma split_lines_join_lines (docs : list string) :
  Forall (fun d => lf_free d = true) docs ->
  split_lines (join_lines docs) = (docs, EmptyString).
Proof.
  induction 1 as [ | d docs Hd _ IH ]; [ reflexivity | ].
  cbn [join_lines]. rewrite (split_lines_cons _ _ Hd), IH. reflexivity.
Qed.

Lemma join_lines_app (docs docs' : list string) :
  join_lines (docs ++ docs') = join_lines docs +:+ join_lines docs'.
Proof.
  induction docs as [ | d docs IH ]; [ reflexivity | ].
  cbn [app join_lines]. rewrite IH.
  change (String LF (join_lines docs +:+ join_lines docs'))
    with (String LF (join_lines docs) +:+ join_lines docs').
  rewrite string_app_assoc. reflexivity.
Qed.

(** ** One call of [log_mavlink_message] *)

Ltac unfold_py :=
  unfold print;
  unfold mbind, Py_bind, mret, Py_ret, get_self, update, raise,
         evaluate, try_except, try_except_class, with_self, with_files.

Section CallProperties.

Variable float_repr : Z -> string.

Lemma log_mavlink_message_not_logging (env : CallEnv) (msg : MAVLinkMessage)
    (direction : pystr) (w : World) :
  logging w = false ->
  log_mavlink_message float_repr env msg direction w = (Return tt, w).
Proof.
  unfold logging, log_mavlink_message. unfold_py. intros Hg.
  rewrite <- negb_andb, Hg. reflexivity.
Qed.

Lemma log_mavlink_message_not_serializable (env : CallEnv)
    (msg : MAVLinkMessage) (direction : pystr) (w : World) (e : Exn) :
  logging w = true ->
  json_dumps float_repr (json_entry (py (utc_now_isoformat env)) msg direction)
  = Raise e ->
  log_mavlink_message float_repr env msg direction w
  = (Return tt, console_add (JsonLoggingError e) w).
Proof.
  unfold logging, log_mavlink_message. unfold_py. intros Hg Hdumps.
  rewrite <- negb_andb, Hg. cbn [negb]. rewrite Hdumps. reflexivity.
Qed.

Lemma log_mavlink_message_appends (env : CallEnv) (msg : MAVLinkMessage)
    (direction : pystr) (w : World) (f : TextFile) (text : string) :
  json_log_file (self w) = Some f ->
  closed f = false ->
  json_logging_enabled (self w) = true ->
  write_result env = IoOk ->
  flush_result env = IoOk ->
  json_dumps float_repr (json_entry (py (utc_now_isoformat env)) msg direction)
  = Return text ->
  log_mavlink_message float_repr env msg direction w
  = (Return tt,
     {| self := set_json_log_file
                  (Some {| name := name f; closed := false; pending := "" |})
                  (self w);
        files := append_to (name f) (pending f +:+ text +:+ String LF "")
                           (files w);
        console := console w |}).
Proof.
  intros Hfile Hopen Hen Hwrite Hflush Hdumps.
  destruct w as [me fs out], f as [nm cl pd]. cbn [self closed] in *.
  subst cl.
  unfold log_mavlink_message, file_write, file_flush. unfold_py.
  cbn [self]. rewrite Hfile, Hen, Hdumps, Hwrite, Hflush.
  cbn. rewrite Hfile. cbn. reflexivity.
Qed.

Lemma ready_logging (w : World) : ready w = true -> logging w = true.
Proof.
  unfold ready, logging. destruct (json_log_file (self w)) as [ f | ];
    [ | discriminate ].
  rewrite !andb_true_iff. intros [_ ->]. split; reflexivity.
Qed.

Lemma ready_inv (w : World) :
  ready w = true ->
  exists f, json_log_file (self w) = Some f
            /\ closed f = false
            /\ json_logging_enabled (self w) = true.
Proof.
  unfold ready. destruct (json_log_file (self w)) as [ f | ];
    [ | discriminate ].
  rewrite andb_true_iff, negb_true_iff. intros [Hc He]. eauto.
Qed.

Lemma io_ok_inv (env : CallEnv) :
  io_ok env = true -> write_result env = IoOk /\ flush_result env = IoOk.
Proof.
  unfold io_ok. destruct (write_result env), (flush_result env);
    intros H; try discriminate H; auto.
Qed.

(** The effect of a call that goes well, on the log. *)
Lemma log_mavlink_message_ready (env : CallEnv) (msg : MAVLinkMessage)
    (direction : pystr) (w : World) (text : string) :
  ready w = true ->
  io_ok env = true ->
  json_dumps float_repr (json_entry (py (utc_now_isoformat env)) msg direction)
  = Return text ->
  exists w',
    log_mavlink_message float_repr env msg direction w = (Return tt, w')
    /\ ready w' = true
    /\ log_on_disk w' = log_text w +:+ text +:+ String LF ""
    /\ log_pending w' = EmptyString
    /\ console w' = console w
    /\ mavproxy_process (self w') = mavproxy_process (self w).
Proof.
  intros Hready Hio Hdumps.
  destruct (ready_inv w Hready) as (f & Hfile & Hopen & Hen).
  destruct (io_ok_inv env Hio) as [Hwrite Hflush].
  eexists. split.
  { apply (log_mavlink_message_appends env msg direction w f text);
      assumption. }
  unfold ready, log_on_disk, log_text, log_on_disk, log_pending.
  cbn [self files console json_log_file set_json_log_file closed name pending
       json_logging_enabled mavproxy_process].
  rewrite Hfile, Hen, contents_append_to, string_app_assoc.
  repeat split; reflexivity.
Qed.

(** C3. Building the record of one message, at one clock reading and in one
    direction, in two sessions that may differ in everything else (what the
    log already holds, the console, the forwarder), gives the same record and
    appends the same text to both logs: the record of a message depends on
    the message, the direction and the timestamp only. *)
Theorem same_inputs_same_record (env1 env2 : CallEnv) (msg : MAVLinkMessage)
    (direction : pystr) (w1 w2 : World) :
  utc_now_isoformat env1 = utc_now_isoformat env2 ->
  io_ok env1 = true -> io_ok env2 = true ->
  ready w1 = true -> ready w2 = true ->
  json_entry (py (utc_now_isoformat env1)) msg direction
  = json_entry (py (utc_now_isoformat env2)) msg direction
  /\ exists appended : string,
       log_text (run (log_mavlink_message float_repr env1 msg direction) w1)
       = log_text w1 +:+ appended
       /\ log_text (run (log_mavlink_message float_repr env2 msg direction) w2)
          = log_text w2 +:+ appended
       /\ forall text,
            json_dumps float_repr
              (json_entry (py (utc_now_isoformat env1)) msg direction)
            = Return text ->
            appended = text +:+ String LF "".
Proof.
  intros Hnow Hio1 Hio2 Hr1 Hr2. rewrite <- Hnow. split; [ reflexivity | ].
  destruct (json_dumps float_repr
              (json_entry (py (utc_now_isoformat env1)) msg direction))
    as [ text | e ] eqn:Hdumps.
  - exists (text +:+ String LF "").
    destruct (log_mavlink_message_ready env1 msg direction w1 text Hr1 Hio1
                Hdumps) as (w1' & E1 & _ & Hd1 & Hp1 & _).
    assert (Hdumps2 := Hdumps). rewrite Hnow in Hdumps2.
    destruct (log_mavlink_message_ready env2 msg direction w2 text Hr2 Hio2
                Hdumps2) as (w2' & E2 & _ & Hd2 & Hp2 & _).
    unfold run. rewrite E1, E2. cbn [snd].
    unfold log_text at 1 3. rewrite Hd1, Hp1, Hd2, Hp2, !string_app_nil_r.
    split; [ reflexivity | ]. split; [ reflexivity | ].
    intros text' [= <-]. reflexivity.
  - exists EmptyString.
    assert (Hdumps2 := Hdumps). rewrite Hnow in Hdumps2.
    unfold run.
    rewrite (log_mavlink_message_not_serializable env1 msg direction w1 e
               (ready_logging w1 Hr1) Hdumps).
    rewrite (log_mavlink_message_not_serializable env2 msg direction w2 e
               (ready_logging w2 Hr2) Hdumps2).
    cbn [snd]. rewrite !string_app_nil_r.
    split; [ reflexivity | ]. split; [ reflexivity | ]. discriminate.
Qed.


(** C10. A value that is neither [bytes], [bytearray], [dict], [list] nor
    [tuple] is passed through unchanged; when such a value, anywhere in the
    dictionary of a message, cannot be serialized, the serialization of the
    record raises and the call writes nothing: the log file object and the
    files on disk are as they were, and the error is reported. *)
Theorem unserializable_record_is_dropped_whole (v : PyVal) :
  is_passed_through v = true ->
  make_json_serializable v = v
  /\ forall (env : CallEnv) (msg : MAVLinkMessage) (direction : pystr)
            (w : World) (p : list Subscript) (e : Exn),
       at_path p (PDict (to_dict msg)) = Some v ->
       json_dumps float_repr v = Raise e ->
       logging w = true ->
       exists e',
         json_dumps float_repr
           (json_entry (py (utc_now_isoformat env)) msg direction) = Raise e'
         /\ log_mavlink_message float_repr env msg direction w
            = (Return tt,
               {| self := self w; files := files w;
                  console := console w ++ [JsonLoggingError e'] |}).
Proof.
  intros Hpass.
  pose proof (make_json_serializable_passed_through v Hpass) as Hsame.
  split; [ exact Hsame | ].
  intros env msg direction w p e Hat Hraise Hlog.
  assert (at_path (Key (KStr (py "payload")) :: p)
            (json_entry (py (utc_now_isoformat env)) msg direction) = Some v)
    as Hentry.
  { change (at_path p (make_json_serializable (PDict (to_dict msg)))
            = Some v).
    rewrite at_path_make_json_serializable, Hat. cbn. rewrite Hsame.
    reflexivity. }
  destruct (json_dumps_raises_at_path float_repr _ _ v e Hentry Hraise)
    as [e' He'].
  exists e'. split; [ exact He' | ].
  apply (log_mavlink_message_not_serializable env msg direction w e' Hlog He').
Qed.

End CallProperties.

(** ** The capture loop *)

Section LoopProperties.

Variable float_repr : Z -> string.

(** A call of [log_mavlink_message] always returns, whatever the
    serialization, the write and the flush do, and leaves the flag, the
    forwarder and the state of the log file as they were. *)
Lemma log_mavlink_message_returns (env : CallEnv) (msg : MAVLinkMessage)
    (direction : pystr) (w : World) :
  exists w',
    log_mavlink_message float_repr env msg direction w = (Return tt, w')
    /\ json_logging_enabled (self w') = json_logging_enabled (self w)
    /\ file_state w' = file_state w
    /\ mavproxy_process (self w') = mavproxy_process (self w).
Proof.
  destruct w as [[a b c d pr lg jf en] fs out].
  unfold log_mavlink_message, file_write, file_flush, file_state.
  unfold_py. cbn [self].
  generalize (json_dumps float_repr
                (json_entry (py (utc_now_isoformat env)) msg direction)).
  intros r.
  destruct jf as [ [nm [ | ] pd] | ], en, r as [ text | e ];
    cbn; try (eexists; split; [ reflexivity | cbn; auto ]; fail).
  destruct (write_result env) as [ | n1 e1 ],
    (flush_result env) as [ | n2 e2 ];
    cbn; eexists; (split; [ reflexivity | cbn; auto ]).
Qed.

Lemma capture_loop_disabled (t : Turn) (rest : list Turn) (w : World) :
  json_logging_enabled (self w) = false ->
  capture_loop float_repr (t :: rest) w = (Return Exited, w).
Proof.
  intros Hen. cbn [capture_loop]. unfold_py. rewrite Hen. reflexivity.
Qed.

Lemma capture_loop_no_message (t : Turn) (rest : list Turn) (w : World) :
  json_logging_enabled (self w) = true ->
  received t = NoMessage ->
  capture_loop float_repr (t :: rest) w = capture_loop float_repr rest w.
Proof.
  intros Hen Hrecv. cbn [capture_loop]. unfold loop_body. unfold_py.
  rewrite Hen, Hrecv. reflexivity.
Qed.

Lemma capture_loop_message (t : Turn) (rest : list Turn) (w : World)
    (msg : MAVLinkMessage) :
  json_logging_enabled (self w) = true ->
  received t = Message msg ->
  capture_loop float_repr (t :: rest) w
  = capture_loop float_repr rest
      (run (log_mavlink_message float_repr (call_env t) msg (py "RX")) w).
Proof.
  intros Hen Hrecv.
  destruct (log_mavlink_message_returns (call_env t) msg (py "RX") w)
    as (w' & E & _).
  cbn [capture_loop]. unfold loop_body, run. unfold_py.
  rewrite Hen, Hrecv. cbn [negb]. rewrite E. reflexivity.
Qed.

Lemma capture_loop_receive_raises (t : Turn) (rest : list Turn) (w : World)
    (e : Exn) :
  json_logging_enabled (self w) = true ->
  received t = ReceiveRaises e ->
  capture_loop float_repr (t :: rest) w
  = (Return Exited, console_add (JsonLoggerError e) w).
Proof.
  intros Hen Hrecv. cbn [capture_loop]. unfold loop_body. unfold_py.
  rewrite Hen, Hrecv. cbn [negb self]. rewrite Hen. reflexivity.
Qed.

Lemma ready_file_state (w w' : World) :
  file_state w' = file_state w ->
  json_logging_enabled (self w') = json_logging_enabled (self w) ->
  ready w' = ready w.
Proof.
  unfold file_state, ready. intros Hf ->.
  destruct (json_log_file (self w')) as [ f' | ],
           (json_log_file (self w)) as [ f | ];
    try discriminate Hf; [ | reflexivity ].
  injection Hf as _ ->. reflexivity.
Qed.


(** A write or a flush that fails is reported by [log_mavlink_message]. *)
Lemma log_mavlink_message_io_error (env : CallEnv) (msg : MAVLinkMessage)
    (direction : pystr) (w : World) (text : string) (n : nat) (e : Exn) :
  ready w = true ->
  json_dumps float_repr (json_entry (py (utc_now_isoformat env)) msg direction)
  = Return text ->
  write_result env = IoError n e
  \/ (write_result env = IoOk /\ flush_result env = IoError n e) ->
  console (run (log_mavlink_message float_repr env msg direction) w)
  = console w ++ [JsonLoggingError e].
Proof.
  destruct w as [[a b c d pr lg jf en] fs out].
  unfold ready, run, log_mavlink_message, file_write, file_flush.
  unfold_py. cbn [self json_log_file json_logging_enabled].
  intros Hready ->.
  destruct jf as [ [nm [ | ] pd] | ], en; try discriminate Hready.
  intros [ -> | [-> ->] ]; reflexivity.
Qed.


(** C5. When the write or the flush of a record fails, the error is
    reported and the loop goes on with the turns that follow, still logging
    into the same open file. *)
Theorem failed_append_does_not_stop_capture (t : Turn) (rest : list Turn)
    (w : World) (msg : MAVLinkMessage) (text : string) (n : nat) (e : Exn) :
  ready w = true ->
  received t = Message msg ->
  json_dumps float_repr
    (json_entry (py (utc_now_isoformat (call_env t))) msg (py "RX"))
  = Return text ->
  write_result (call_env t) = IoError n e
  \/ (write_result (call_env t) = IoOk
      /\ flush_result (call_env t) = IoError n e) ->
  exists w',
    capture_loop float_repr (t :: rest) w = capture_loop float_repr rest w'
    /\ ready w' = true
    /\ file_state w' = file_state w
    /\ console w' = console w ++ [JsonLoggingError e].
Proof.
  intros Hready Hrecv Hdumps Hio.
  destruct (ready_inv w Hready) as (f & _ & _ & Hen).
  exists (run (log_mavlink_message float_repr (call_env t) msg (py "RX")) w).
  split; [ apply (capture_loop_message t rest w msg Hen Hrecv) | ].
  destruct (log_mavlink_message_returns (call_env t) msg (py "RX") w)
    as (w' & E & Hen' & Hfs & _).
  unfold run at 1 2. rewrite E. cbn [snd].
  split; [ rewrite (ready_file_state w w' Hfs Hen'); exact Hready | ].
  split; [ exact Hfs | ].
  apply (log_mavlink_message_io_error (call_env t) msg (py "RX") w text n e
           Hready Hdumps Hio).
Qed.



End LoopProperties.

(** ** Starting and stopping *)

Lemma setup_json_logging_opened (env : SetupEnv) (w : World) :
  open_result env = None ->
  setup_json_logging env w
  = (Return true,
     {| self := set_json_log_file
                  (Some {| name := log_path env w; closed := false;
                           pending := "" |})
                  (self w);
        files := <[log_path env w := ""]> (files w);
        console := console w ++ [JsonLoggingTo (log_path env w)] |}).
Proof.
  intros Hopen. unfold setup_json_logging. unfold_py. rewrite Hopen.
  reflexivity.
Qed.

(** When the file cannot be opened, nothing is created and the setup
    returns [False]. *)
Lemma setup_json_logging_failed (env : SetupEnv) (w : World) (e : Exn) :
  open_result env = Some e ->
  setup_json_logging env w
  = (Return false, console_add (FailedToSetupJsonLogging e) w).
Proof.
  intros Hopen. unfold setup_json_logging. unfold_py. rewrite Hopen.
  reflexivity.
Qed.

Lemma start_json_logger_failed (env : SetupEnv) (w : World) (e : Exn) :
  open_result env = Some e ->
  start_json_logger env w
  = (Return false, console_add (FailedToSetupJsonLogging e) w).
Proof.
  intros Hopen. unfold start_json_logger. unfold mbind, Py_bind.
  rewrite (setup_json_logging_failed env w e Hopen). reflexivity.
Qed.

(** Once [start_json_logger] has opened the file, the controller is
    logging into an open, empty log with nothing pending. *)
Lemma start_json_logger_ready (env : SetupEnv) (w : World) :
  open_result env = None ->
  json_logging_enabled (self w) = true ->
  ready (run (start_json_logger env) w) = true
  /\ log_pending (run (start_json_logger env) w) = EmptyString
  /\ log_on_disk (run (start_json_logger env) w) = EmptyString.
Proof.
  intros Hopen Hen. unfold run, start_json_logger. unfold mbind, Py_bind.
  rewrite (setup_json_logging_opened env w Hopen).
  unfold ready, log_pending, log_on_disk, contents. cbn.
  rewrite Hen, lookup_insert_eq. repeat split; reflexivity.
Qed.

Section StartProperties.

Variable float_repr : Z -> string.

(** C8, as the code has it.  [start_json_logger] creates the log file
    before any connection is attempted and returns [True] once the thread is
    started; a connection that then fails in the thread is reported there,
    the loop is not entered, and the log file stays on disk, empty. *)
Theorem connection_failure_after_start (env : SetupEnv) (w : World)
    (e : Exn) (turns : list Turn) :
  open_result env = None ->
  exists w1,
    start_json_logger env w = (Return true, w1)
    /\ files w1 !! log_path env w = Some EmptyString
    /\ json_logger_thread float_repr (Some e) turns w1
       = (Return Exited,
          {| self := self w1; files := files w1;
             console := console w1 ++ [JsonLoggerConnectionFailed e] |}).
Proof.
  intros Hopen. eexists. split.
  { unfold start_json_logger. unfold mbind, Py_bind.
    rewrite (setup_json_logging_opened env w Hopen). reflexivity. }
  split.
  - cbn [files]. apply lookup_insert_eq.
  - reflexivity.
Qed.

End StartProperties.

(** C9, as the code has it.  Calling [stop] on a controller that is already
    stopped (logging disabled, the forwarder, if any, reaped) changes no
    attribute of the controller and no file, and does not close the log file
    again; when a forwarder had been started, it is signalled and waited for
    again, to no effect, and its stop is reported once more. *)
Theorem stop_again_changes_no_state (env : StopEnv) (w : World) :
  json_logging_enabled (self w) = false ->
  process_reaped (self w) = true ->
  stop env w
  = (Return tt,
     {| self := self w; files := files w;
        console :=
          console w
          ++ (if bool_decide (is_Some (mavproxy_process (self w)))
              then [MavproxyStopped] else []) |}).
Proof.
  destruct w as [[a b c d pr lg jf en] fs out].
  unfold process_reaped.
  cbn [self json_logging_enabled mavproxy_process]. intros -> Hreaped.
  unfold stop, signal_process, wait_timeout. unfold_py.
  destruct pr as [ [[rc | ]] | ]; try discriminate Hreaped; cbn.
  - reflexivity.
  - rewrite app_nil_r. reflexivity.
Qed.

(** A first [stop] during which nothing raises leaves the controller
    stopped, with the log file closed and flushed. *)
Lemma stop_leaves_stopped (env : StopEnv) (w : World) :
  close_result env = IoOk ->
  terminate_result env = None ->
  kill_result env = None ->
  (forall e, wait_result env <> WaitRaises e) ->
  exists w',
    stop env w = (Return tt, w')
    /\ json_logging_enabled (self w') = false
    /\ process_reaped (self w') = true
    /\ (json_logging_enabled (self w) = true ->
        forall f, json_log_file (self w) = Some f ->
                  json_log_file (self w')
                  = Some {| name := name f; closed := true;
                            pending := if closed f then pending f else "" |}).
Proof.
  destruct w as [[a b c d pr lg jf en] fs out].
  intros Hclose Hterm Hkill Hwait.
  unfold stop, file_close, signal_process, wait_timeout, wait_forever, reap,
         process_reaped.
  unfold_py. cbn [self json_logging_enabled json_log_file mavproxy_process].
  rewrite Hclose, Hterm, Hkill.
  destruct en, jf as [ [nm [ | ] pd] | ], pr as [ [[rc | ]] | ];
    cbn;
    try (destruct (wait_result env) as [ rc' | | e' ] eqn:Hw;
         [ | | destruct (Hwait e' eq_refl) ]; cbn);
    (eexists; split; [ reflexivity | ]; cbn;
     repeat split; try reflexivity; try discriminate;
     intros _ f [= <-]; reflexivity).
Qed.

Section StopProperties.

Variable float_repr : Z -> string.

(** Cooperative shutdown: after such a [stop], the loop ends at its next
    test of the flag, without another receive call and without writing. *)
Lemma capture_loop_exits_after_stop (env : StopEnv) (w : World) (t : Turn)
    (rest : list Turn) :
  close_result env = IoOk ->
  terminate_result env = None ->
  kill_result env = None ->
  (forall e, wait_result env <> WaitRaises e) ->
  exists w',
    stop env w = (Return tt, w')
    /\ capture_loop float_repr (t :: rest) w' = (Return Exited, w').
Proof.
  intros Hclose Hterm Hkill Hwait.
  destruct (stop_leaves_stopped env w Hclose Hterm Hkill Hwait)
    as (w' & Hstop & Hen & _).
  exists w'. split; [ exact Hstop | ].
  apply (capture_loop_disabled float_repr t rest w' Hen).
Qed.

End StopProperties.

(** ** Concrete runs *)

Lemma sample_float_repr_lf_free (bits : Z) :
  lf_free (sample_float_repr bits) = true.
Proof. unfold sample_float_repr. destruct (bits =? _)%Z; reflexivity. Qed.

(** The payload of the sample heartbeat, as it is written. *)
Example heartbeat_payload_text :
  json_dumps sample_float_repr
    (make_json_serializable (PDict (to_dict (heartbeat 1))))
  = Return
      ("{" +:+ quoted "mavpackettype" +:+ ": " +:+ quoted "HEARTBEAT"
       +:+ ", " +:+ quoted "type" +:+ ": 2"
       +:+ ", " +:+ quoted "load" +:+ ": 1.5"
       +:+ ", " +:+ quoted "raw" +:+ ": " +:+ quoted "PX\ufffd4"
       +:+ ", " +:+ quoted "version" +:+ ": [1, " +:+ quoted "\u20ac"
       +:+ "]}").
Proof. vm_compute. reflexivity. Qed.

(** The scenario of the specification: three valid frames, then a frame on
    which the receive call raises.  The log holds the three records, in
    order, and the loop has ended. *)
Example three_frames_then_a_bad_one :
  let turns := [sample_turn 1; sample_turn 2; sample_turn 3; bad_turn] in
  fst (capture_loop sample_float_repr turns started_world) = Return Exited
  /\ length (fst (split_lines
                    (log_on_disk
                       (run (capture_loop sample_float_repr turns)
                            started_world)))) = 3
  /\ snd (split_lines
            (log_on_disk
               (run (capture_loop sample_float_repr turns) started_world)))
     = EmptyString
  /\ console (run (capture_loop sample_float_repr turns) started_world)
     = [JsonLoggingTo sample_log_name; JsonLoggerError bad_frame].
Proof. vm_compute. repeat split; reflexivity. Qed.

(** The same heartbeat, logged at the same clock reading into a fresh log
    and into a log that already holds a record. *)
Lemma same_inputs_same_record_witness :
  let env := sample_call "2024-01-01T12:00:02.000000+00:00" in
  (utc_now_isoformat env = utc_now_isoformat env
   /\ io_ok env = true
   /\ ready started_world = true
   /\ ready logged_world = true)
  /\ json_entry (py (utc_now_isoformat env)) (heartbeat 1) (py "RX")
     = json_entry (py (utc_now_isoformat env)) (heartbeat 1) (py "RX")
  /\ exists appended : string,
       log_text (run (log_mavlink_message sample_float_repr env (heartbeat 1)
                        (py "RX")) started_world)
       = log_text started_world +:+ appended
       /\ log_text (run (log_mavlink_message sample_float_repr env
                           (heartbeat 1) (py "RX")) logged_world)
          = log_text logged_world +:+ appended
       /\ forall text,
            json_dumps sample_float_repr
              (json_entry (py (utc_now_isoformat env)) (heartbeat 1)
                 (py "RX"))
            = Return text ->
            appended = text +:+ String LF "".
Proof.
  intros env. split; [ repeat split; reflexivity | ].
  apply (same_inputs_same_record sample_float_repr env env (heartbeat 1)
           (py "RX") started_world logged_world); reflexivity.
Defined.



Lemma failed_append_does_not_stop_capture_witness :
  (ready started_world = true
   /\ received (failing_turn 1) = Message (heartbeat 1)
   /\ (exists text,
         json_dumps sample_float_repr
           (json_entry (py (utc_now_isoformat (call_env (failing_turn 1))))
              (heartbeat 1) (py "RX")) = Return text)
   /\ write_result (call_env (failing_turn 1)) = IoError 10 disk_full)
  /\ exists w',
       capture_loop sample_float_repr (failing_turn 1 :: [sample_turn 2])
         started_world
       = capture_loop sample_float_repr [sample_turn 2] w'
       /\ ready w' = true
       /\ file_state w' = file_state started_world
       /\ console w' = console started_world ++ [JsonLoggingError disk_full].
Proof.
  split.
  - repeat split; try reflexivity. eexists. vm_compute. reflexivity.
  - eapply (failed_append_does_not_stop_capture sample_float_repr
              (failing_turn 1) [sample_turn 2] started_world (heartbeat 1)
              _ 10 disk_full).
    + reflexivity.
    + reflexivity.
    + vm_compute. reflexivity.
    + left. reflexivity.
Defined.

(** The heartbeat received after the failed write is logged whole; of the
    failed write, the ten characters that went through are in front of it. *)
Example heartbeat_after_failed_write :
  let w := run (capture_loop sample_float_repr
                  [failing_turn 1; sample_turn 2]) started_world in
  console w = [JsonLoggingTo sample_log_name; JsonLoggingError disk_full]
  /\ exists doc,
       json_dumps sample_float_repr
         (json_entry (py (utc_now_isoformat (call_env (sample_turn 2))))
            (heartbeat 2) (py "RX")) = Return doc
       /\ log_on_disk w = take_string 10 doc +:+ doc +:+ String LF "".
Proof.
  split; [ vm_compute; reflexivity | ].
  eexists. split; vm_compute; reflexivity.
Qed.



(** The connection fails, yet [start_json_logger] has returned [True] and
    the log file is on disk, empty, before and after the thread has run. *)
Lemma start_succeeds_without_connection_counterexample :
  start_json_logger sample_setup fresh_world = (Return true, started_world)
  /\ files started_world !! sample_log_name = Some EmptyString
  /\ files fresh_world !! sample_log_name = None
  /\ json_logger_thread sample_float_repr (Some connection_refused)
       [sample_turn 1] started_world
     = (Return Exited,
        console_add (JsonLoggerConnectionFailed connection_refused)
                    started_world).
Proof. vm_compute. repeat split; reflexivity. Qed.

Lemma connection_failure_after_start_witness :
  open_result sample_setup = None
  /\ exists w1,
       start_json_logger sample_setup fresh_world = (Return true, w1)
       /\ files w1 !! log_path sample_setup fresh_world = Some EmptyString
       /\ json_logger_thread sample_float_repr (Some connection_refused)
            [sample_turn 1] w1
          = (Return Exited,
             {| self := self w1; files := files w1;
                console :=
                  console w1
                  ++ [JsonLoggerConnectionFailed connection_refused] |}).
Proof.
  split; [ reflexivity | ].
  apply (connection_failure_after_start sample_float_repr sample_setup
           fresh_world connection_refused [sample_turn 1]).
  reflexivity.
Defined.

(** A second [stop] on the stopped controller prints again that the
    forwarder has stopped: the call is not without observable effect. *)
Lemma stop_again_prints_counterexample :
  json_logging_enabled (self stopped_world) = false
  /\ process_reaped (self stopped_world) = true
  /\ console stopped_world
     = [JsonLoggingTo sample_log_name; JsonLoggingStopped; MavproxyStopped]
  /\ console (run (stop sample_stop) stopped_world)
     = [JsonLoggingTo sample_log_name; JsonLoggingStopped; MavproxyStopped;
        MavproxyStopped]
  /\ stop sample_stop stopped_world <> (Return tt, stopped_world).
Proof.
  repeat split; try (vm_compute; reflexivity).
  intros Heq. apply (f_equal (fun r => length (console (snd r)))) in Heq.
  vm_compute in Heq. discriminate Heq.
Qed.

Lemma stop_again_changes_no_state_witness :
  (json_logging_enabled (self stopped_world) = false
   /\ process_reaped (self stopped_world) = true)
  /\ stop sample_stop stopped_world
     = (Return tt,
        {| self := self stopped_world; files := files stopped_world;
           console :=
             console stopped_world
             ++ (if bool_decide (is_Some (mavproxy_process
                                            (self stopped_world)))
                 then [MavproxyStopped] else []) |}).
Proof.
  split; [ split; reflexivity | ].
  apply (stop_again_changes_no_state sample_stop stopped_world); reflexivity.
Defined.

Lemma unserializable_record_is_dropped_whole_witness :
  let env := sample_call "2024-01-01T12:00:03.000000+00:00" in
  let p := [Key (KStr (py "flags")); Index 1] in
  (is_passed_through (POther "set") = true
   /\ at_path p (PDict (to_dict odd_message)) = Some (POther "set")
   /\ json_dumps sample_float_repr (POther "set")
      = Raise (not_serializable "set")
   /\ logging logged_world = true)
  /\ make_json_serializable (POther "set") = POther "set"
  /\ exists e',
       json_dumps sample_float_repr
         (json_entry (py (utc_now_isoformat env)) odd_message (py "RX"))
       = Raise e'
       /\ log_mavlink_message sample_float_repr env odd_message (py "RX")
            logged_world
          = (Return tt,
             {| self := self logged_world; files := files logged_world;
                console := console logged_world ++ [JsonLoggingError e'] |}).
Proof.
  intros env p. split; [ repeat split; reflexivity | ].
  destruct (unserializable_record_is_dropped_whole sample_float_repr
              (POther "set") eq_refl) as [Hsame Hdrop].
  split; [ exact Hsame | ].
  apply (Hdrop env odd_message (py "RX") logged_world p
           (not_serializable "set")); reflexivity.
Defined.

(** * Further properties *)

(** ** What a call and the loop leave alone *)

Section MoreLoopProperties.

Variable float_repr : Z -> string.

Lemma log_mavlink_message_effect (env : CallEnv) (msg : MAVLinkMessage)
    (direction : pystr) (w : World) :
  exists (w' : World) (added : string) (printed : list Line),
    log_mavlink_message float_repr env msg direction w = (Return tt, w')
    /\ json_logging_enabled (self w') = json_logging_enabled (self w)
    /\ file_state w' = file_state w
    /\ mavproxy_process (self w') = mavproxy_process (self w)
    /\ log_on_disk w' = log_on_disk w +:+ added
    /\ (forall path,
          name <$> json_log_file (self w) <> Some path ->
          files w' !! path = files w !! path)
    /\ console w' = console w ++ printed
    /\ length printed <= 1.
Proof.
  destruct w as [[a b c d pr lg jf en] fs out].
  unfold log_mavlink_message, file_write, file_flush, file_state,
         log_on_disk.
  unfold_py. cbn [self].
  generalize (json_dumps float_repr
                (json_entry (py (utc_now_isoformat env)) msg direction)).
  intros r.
  destruct jf as [ [nm [ | ] pd] | ], en, r as [ text | e ]; cbn.
  5: destruct (write_result env) as [ | n1 e1 ],
              (flush_result env) as [ | n2 e2 ]; cbn.
  all: eexists _, _, _; (split; [ reflexivity | ]); cbn.
  all: repeat split; try reflexivity;
    try (symmetry; apply string_app_nil_r);
    try apply contents_append_to;
    try (symmetry; apply app_nil_r);
    try (intros path Hne; unfold append_to;
         apply lookup_insert_ne; intros ->; apply Hne; reflexivity);
    try (cbn; lia).
Qed.

Lemma file_state_name (w w' : World) :
  file_state w' = file_state w ->
  name <$> json_log_file (self w') = name <$> json_log_file (self w).
Proof.
  unfold file_state.
  destruct (json_log_file (self w')) as [ f' | ],
           (json_log_file (self w)) as [ f | ]; cbn; congruence.
Qed.

Lemma file_state_log_on_disk (w w' : World) :
  file_state w' = file_state w ->
  files w' = files w ->
  log_on_disk w' = log_on_disk w.
Proof.
  unfold file_state, log_on_disk. intros Hfs ->.
  destruct (json_log_file (self w')) as [ f' | ],
           (json_log_file (self w)) as [ f | ]; cbn in *; congruence.
Qed.

(** X2. A call of [log_mavlink_message] never raises, whatever the
    serialization, the write and the flush do.  It leaves the flag, the
    forwarder and the state of the file object as they were, prints at most
    one line, only adds to what the log holds on disk and touches no other
    file. *)
Theorem log_mavlink_message_only_appends (env : CallEnv)
    (msg : MAVLinkMessage) (direction : pystr) (w : World) :
  exists (w' : World) (added : string) (printed : list Line),
    log_mavlink_message float_repr env msg direction w = (Return tt, w')
    /\ json_logging_enabled (self w') = json_logging_enabled (self w)
    /\ file_state w' = file_state w
    /\ mavproxy_process (self w') = mavproxy_process (self w)
    /\ log_on_disk w' = log_on_disk w +:+ added
    /\ (forall path,
          name <$> json_log_file (self w) <> Some path ->
          files w' !! path = files w !! path)
    /\ console w' = console w ++ printed
    /\ length printed <= 1.
Proof.
  destruct (log_mavlink_message_effect env msg direction w)
    as (w' & added & printed & H).
  exists w', added, printed. exact H.
Qed.

Lemma capture_loop_effect (turns : list Turn) :
  forall w : World,
  exists (st : LoopState) (w' : World) (added : string)
         (printed : list Line),
    capture_loop float_repr turns w = (Return st, w')
    /\ json_logging_enabled (self w') = json_logging_enabled (self w)
    /\ file_state w' = file_state w
    /\ mavproxy_process (self w') = mavproxy_process (self w)
    /\ log_on_disk w' = log_on_disk w +:+ added
    /\ (forall path,
          name <$> json_log_file (self w) <> Some path ->
          files w' !! path = files w !! path)
    /\ console w' = console w ++ printed.
Proof.
  induction turns as [ | t turns IH ]; intros w.
  - exists Looping, w, EmptyString, [].
    rewrite string_app_nil_r, app_nil_r. repeat split; reflexivity.
  - destruct (Bool.bool_dec (json_logging_enabled (self w)) true)
      as [ Hen | Hen ]; [ | apply not_true_is_false in Hen ].
    + destruct (received t) as [ msg | | e ] eqn:Hrecv.
      * rewrite (capture_loop_message float_repr t turns w msg Hen Hrecv).
        destruct (log_mavlink_message_effect (call_env t) msg (py "RX") w)
          as (w1 & added1 & printed1 & E & Hen1 & Hfs1 & Hpr1 & Hdisk1
              & Hother1 & Hcon1 & _).
        unfold run. rewrite E. cbn [snd].
        destruct (IH w1)
          as (st & w' & added & printed & Eloop & Hen' & Hfs' & Hpr'
              & Hdisk' & Hother' & Hcon').
        exists st, w', (added1 +:+ added), (printed1 ++ printed).
        split; [ exact Eloop | ].
        split; [ congruence | ]. split; [ congruence | ].
        split; [ congruence | ].
        split; [ rewrite Hdisk', Hdisk1; apply string_app_assoc | ].
        split.
        -- intros path Hne.
           rewrite Hother'; [ apply Hother1, Hne | ].
           rewrite (file_state_name w w1 Hfs1). exact Hne.
        -- rewrite Hcon', Hcon1, app_assoc. reflexivity.
      * rewrite (capture_loop_no_message float_repr t turns w Hen Hrecv).
        apply IH.
      * rewrite (capture_loop_receive_raises float_repr t turns w e Hen
                   Hrecv).
        exists Exited, (console_add (JsonLoggerError e) w), EmptyString,
               [JsonLoggerError e].
        rewrite string_app_nil_r. repeat split; reflexivity.
    + rewrite (capture_loop_disabled float_repr t turns w Hen).
      exists Exited, w, EmptyString, [].
      rewrite string_app_nil_r, app_nil_r. repeat split; reflexivity.
Qed.

(** X3. The capture loop never raises, whatever is received and whatever
    the writes and flushes do; it never changes the flag, the forwarder or
    the state of the file object (it never closes the file), only adds to
    what the log holds on disk, only adds to the console, and touches no
    other file. *)
Theorem capture_loop_only_appends (turns : list Turn) (w : World) :
  exists (st : LoopState) (w' : World) (added : string)
         (printed : list Line),
    capture_loop float_repr turns w = (Return st, w')
    /\ json_logging_enabled (self w') = json_logging_enabled (self w)
    /\ file_state w' = file_state w
    /\ mavproxy_process (self w') = mavproxy_process (self w)
    /\ log_on_disk w' = log_on_disk w +:+ added
    /\ (forall path,
          name <$> json_log_file (self w) <> Some path ->
          files w' !! path = files w !! path)
    /\ console w' = console w ++ printed.
Proof.
  destruct (capture_loop_effect turns w)
    as (st & w' & added & printed & H).
  exists st, w', added, printed. exact H.
Qed.

Lemma ready_console_add (l : Line) (w : World) :
  ready (console_add l w) = ready w.
Proof. reflexivity. Qed.

Lemma capture_loop_undisturbed (turns : list Turn) :
  forall w : World,
    ready w = true ->
    log_pending w = EmptyString ->
    forallb undisturbed_turn turns = true ->
    exists w' : World,
      capture_loop float_repr turns w = (Return Looping, w')
      /\ ready w' = true
      /\ log_on_disk w'
         = log_on_disk w
           +:+ join_lines (documents (serializations float_repr turns))
      /\ log_pending w' = EmptyString
      /\ console w'
         = console w
           ++ map JsonLoggingError
                  (rejections (serializations float_repr turns)).
Proof.
  induction turns as [ | t turns IH ]; intros w Hready Hpend Hturns.
  - exists w. cbn. rewrite string_app_nil_r, app_nil_r.
    repeat split; assumption.
  - cbn [forallb] in Hturns. apply andb_true_iff in Hturns as [Ht Hturns].
    destruct (ready_inv w Hready) as (f & _ & _ & Hen).
    unfold undisturbed_turn in Ht. unfold serializations. cbn [frames_of].
    destruct (received t) as [ msg | | e ] eqn:Hrecv; [ | | discriminate ].
    + rewrite (capture_loop_message float_repr t turns w msg Hen Hrecv).
      cbn [map fst snd].
      destruct (json_dumps float_repr
                  (json_entry (py (utc_now_isoformat (call_env t))) msg
                     (py "RX"))) as [ text | e ] eqn:Hdumps.
      * destruct (log_mavlink_message_ready float_repr (call_env t) msg
                    (py "RX") w text Hready Ht Hdumps)
          as (w1 & E & Hready1 & Hdisk1 & Hpend1 & Hcon1 & _).
        unfold run. rewrite E. cbn [snd].
        destruct (IH w1 Hready1 Hpend1 Hturns)
          as (w' & Eloop & Hready' & Hdisk' & Hpend' & Hcon').
        exists w'. split; [ exact Eloop | ]. split; [ exact Hready' | ].
        split; [ | split; [ exact Hpend' | ] ].
        -- rewrite Hdisk', Hdisk1. unfold log_text. rewrite Hpend.
           rewrite string_app_nil_r. cbn [documents join_lines].
           fold (serializations float_repr turns).
           rewrite !string_app_assoc. reflexivity.
        -- rewrite Hcon', Hcon1. reflexivity.
      * unfold run.
        rewrite (log_mavlink_message_not_serializable float_repr (call_env t)
                   msg (py "RX") w e (ready_logging w Hready) Hdumps).
        cbn [snd].
        destruct (IH (console_add (JsonLoggingError e) w) Hready Hpend
                    Hturns)
          as (w' & Eloop & Hready' & Hdisk' & Hpend' & Hcon').
        exists w'. split; [ exact Eloop | ]. split; [ exact Hready' | ].
        split; [ exact Hdisk' | ]. split; [ exact Hpend' | ].
        rewrite Hcon'. cbn [rejections map console console_add].
        rewrite <- app_assoc. reflexivity.
    + rewrite (capture_loop_no_message float_repr t turns w Hen Hrecv).
      apply (IH w Hready Hpend Hturns).
Qed.

(** X4. Fault isolation.  In a run of turns that brings no error from
    outside (timeouts, and messages whose write and flush succeed), a
    message whose record cannot be serialized costs its own line only: the
    log gains exactly the documents of the other messages, in order, each on
    its line, and the console one error per rejected record; the loop keeps
    running. *)
Theorem unserializable_frames_are_skipped
    (float_repr_lf_free : forall bits, lf_free (float_repr bits) = true)
    (turns : list Turn) (w : World) :
  ready w = true ->
  log_pending w = EmptyString ->
  log_on_disk w = EmptyString ->
  forallb undisturbed_turn turns = true ->
  exists w' : World,
    capture_loop float_repr turns w = (Return Looping, w')
    /\ split_lines (log_on_disk w')
       = (documents (serializations float_repr turns), EmptyString)
    /\ console w'
       = console w
         ++ map JsonLoggingError
                (rejections (serializations float_repr turns))
    /\ length (documents (serializations float_repr turns))
       + length (rejections (serializations float_repr turns))
       = length (frames_of turns).
Proof.
  intros Hready Hpend Hdisk Hturns.
  destruct (capture_loop_undisturbed turns w Hready Hpend Hturns)
    as (w' & Eloop & _ & Hdisk' & _ & Hcon').
  exists w'. split; [ exact Eloop | ].
  rewrite Hdisk in Hdisk'. cbn in Hdisk'.
  split; [ | split; [ exact Hcon' | ] ].
  - rewrite Hdisk'. apply split_lines_join_lines.
    unfold serializations.
    induction (frames_of turns) as [ | frame frames IHf ];
      [ constructor | ].
    cbn [map documents].
    destruct (json_dumps float_repr
                (json_entry (py frame.2) frame.1 (py "RX")))
      as [ text | e ] eqn:Hdumps; [ | exact IHf ].
    constructor; [ | exact IHf ].
    apply (lf_free_json_dumps float_repr float_repr_lf_free _ _ Hdumps).
  - unfold serializations. rewrite <- (length_map
      (fun frame : MAVLinkMessage * string =>
         json_dumps float_repr (json_entry (py frame.2) frame.1 (py "RX")))
      (frames_of turns)).
    induction (map _ (frames_of turns)) as [ | [ d | e ] rs IHr ];
      cbn [documents rejections length]; lia.
Qed.

End MoreLoopProperties.

(** ** More on the normalizer *)

Lemma map_id_Forall {A : Type} (f : A -> A) (l : list A) :
  Forall (fun a => f a = a) l -> map f l = l.
Proof.
  induction 1 as [ | a l Ha _ IH ]; [ reflexivity | ].
  cbn [map]. rewrite Ha, IH. reflexivity.
Qed.

(** X5. A tree that is already JSON-safe is returned as it is. *)
Theorem json_safe_tree_is_unchanged (v : PyVal) :
  json_safe v = true -> make_json_serializable v = v.
Proof.
  induction v as [ | | | | | | | items IH | elts IH | elts IH | ]
    using PyVal_nested_ind; cbn [json_safe make_json_serializable];
    intros Hsafe; try reflexivity; try discriminate Hsafe.
  - f_equal. apply map_id_Forall.
    rewrite forallb_forall in Hsafe. rewrite List.Forall_forall in IH.
    apply List.Forall_forall. intros [k v] Hin. cbn [fst snd].
    specialize (Hsafe _ Hin). apply andb_true_iff in Hsafe as [_ Hv].
    f_equal. apply (IH (k, v) Hin Hv).
  - f_equal. apply map_id_Forall.
    rewrite forallb_forall in Hsafe. rewrite List.Forall_forall in IH.
    apply List.Forall_forall. intros v Hin. apply (IH _ Hin), Hsafe, Hin.
Qed.

(** X6. A [bytes] or [bytearray] value that holds the UTF-8 encoding of a
    text is normalized to that text: valid UTF-8 goes through without
    loss. *)
Theorem utf8_bytes_are_normalized_to_their_text (s : pystr)
    (bs : list byte) :
  Forall (fun c => is_scalar_value c = true) s ->
  map Byte.to_N bs = utf8_encode s ->
  make_json_serializable (PBytes bs) = PStr s
  /\ make_json_serializable (PByteArray bs) = PStr s.
Proof.
  intros Hs Hbs. cbn [make_json_serializable].
  rewrite (utf8_decode_replace_utf8_encode s Hs bs Hbs).
  split; reflexivity.
Qed.

Lemma utf8_decode_replace_length_upto (n : nat) :
  forall s : list byte,
    length s <= n ->
    length (utf8_decode_replace s) <= length s
    /\ (s <> [] -> utf8_decode_replace s <> []).
Proof.
  induction n as [ | n IH ]; intros s Hlen.
  - destruct s; [ split; [ cbn; lia | congruence ] | simpl in Hlen; lia ].
  - destruct s as [ | b1 r1 ]; [ split; [ cbn; lia | congruence ] | ].
    split; [ | cbn [utf8_decode_replace];
               repeat match goal with
               | |- context [match ?l with [] => _ | _ :: _ => _ end] =>
                   is_var l; destruct l
               | |- context [if ?b then _ else _] => destruct b
               end; discriminate ].
    cbn [utf8_decode_replace].
    repeat match goal with
    | |- context [match ?l with [] => _ | _ :: _ => _ end] =>
        is_var l; let b := fresh "b" in destruct l as [ | b l ]
    | |- context [if ?b then _ else _] => destruct b
    end;
    cbn [length] in *;
    repeat match goal with
    | |- context [length (utf8_decode_replace ?r)] =>
        let H := fresh "H" in
        assert (H : length (utf8_decode_replace r) <= length r)
          by (apply IH; cbn [length]; lia);
        cbn [length] in H;
        generalize dependent (length (utf8_decode_replace r)); intros
    end; lia.
Qed.

(** X7. Decoding a binary blob gives at most as many code points as the
    blob has bytes, and at least one when the blob is not empty: no blob
    grows, and none but the empty one becomes the empty string. *)
Theorem binary_blob_keeps_its_size_bound (bs : list byte) :
  exists s : pystr,
    make_json_serializable (PBytes bs) = PStr s
    /\ make_json_serializable (PByteArray bs) = PStr s
    /\ length s <= length bs
    /\ (bs <> [] -> s <> []).
Proof.
  exists (utf8_decode_replace bs).
  split; [ reflexivity | ]. split; [ reflexivity | ].
  apply (utf8_decode_replace_length_upto (length bs)). lia.
Qed.

(** ** More on stopping *)

Lemma quiet_stop_inv (env : StopEnv) :
  quiet_stop env = true ->
  close_result env = IoOk
  /\ terminate_result env = None
  /\ kill_result env = None
  /\ (forall e, wait_result env <> WaitRaises e).
Proof.
  unfold quiet_stop.
  destruct (close_result env), (terminate_result env), (kill_result env),
           (wait_result env); intros H; try discriminate H;
    repeat split; discriminate.
Qed.

Lemma stop_disables_logging (env : StopEnv) (w : World) :
  json_logging_enabled (self (run (stop env) w)) = false.
Proof.
  destruct w as [[a b c d pr lg jf en] fs out].
  unfold run, stop, file_close, signal_process, wait_timeout, wait_forever,
         reap.
  unfold_py. cbn [self json_logging_enabled json_log_file mavproxy_process].
  destruct en, jf as [ [nm [ | ] pd] | ],
    (close_result env) as [ | n e ], pr as [ [[rc | ]] | ]; cbn;
    try reflexivity;
    destruct (terminate_result env) as [ e1 | ]; cbn; try reflexivity;
    destruct (wait_result env) as [ rc' | | e2 ]; cbn; try reflexivity;
    destruct (kill_result env) as [ e3 | ]; cbn; try reflexivity;
    destruct (decide (exn_class e2 = "TimeoutExpired")); reflexivity.
Qed.

Section MoreStopProperties.

Variable float_repr : Z -> string.

(** X8. After [stop], however it ends (also when closing the file or
    signalling the forwarder raises), nothing is logged any more: the loop
    ends at its next test of the flag without a receive call, and a direct
    call of [log_mavlink_message] does nothing. *)
Theorem nothing_is_logged_after_stop (env : StopEnv) (w : World) :
  let w' := run (stop env) w in
  (forall (t : Turn) (rest : list Turn),
     capture_loop float_repr (t :: rest) w' = (Return Exited, w'))
  /\ (forall (cenv : CallEnv) (msg : MAVLinkMessage) (direction : pystr),
        log_mavlink_message float_repr cenv msg direction w'
        = (Return tt, w')).
Proof.
  intros w'. pose proof (stop_disables_logging env w) as Hen.
  fold w' in Hen. split.
  - intros t rest. apply (capture_loop_disabled float_repr t rest w' Hen).
  - intros cenv msg direction.
    apply log_mavlink_message_not_logging.
    unfold logging. rewrite Hen. apply andb_false_r.
Qed.

End MoreStopProperties.

Lemma stop_quiet_on_ready (env : StopEnv) (w : World) :
  ready w = true ->
  quiet_stop env = true ->
  exists w',
    stop env w = (Return tt, w')
    /\ json_logging_enabled (self w') = false
    /\ file_state w' = (fun s => (s.1, true)) <$> file_state w
    /\ log_on_disk w' = log_text w
    /\ log_pending w' = EmptyString
    /\ process_reaped (self w') = true.
Proof.
  destruct w as [[a b c d pr lg jf en] fs out].
  unfold ready, quiet_stop, file_state, log_on_disk, log_pending, log_text,
         process_reaped.
  cbn [self json_logging_enabled json_log_file mavproxy_process].
  intros Hready Hquiet.
  destruct jf as [ [nm [ | ] pd] | ], en; try discriminate Hready.
  unfold stop, file_close, signal_process, wait_timeout, wait_forever, reap.
  unfold_py. cbn [self json_logging_enabled json_log_file mavproxy_process].
  destruct (close_result env) as [ | n e ]; [ | discriminate Hquiet ].
  destruct (terminate_result env) as [ e1 | ]; [ discriminate Hquiet | ].
  destruct (kill_result env) as [ e3 | ]; [ discriminate Hquiet | ].
  destruct (wait_result env) as [ rc' | | e2 ]; [ | | discriminate Hquiet ];
    destruct pr as [ [[rc | ]] | ]; cbn -[append_to];
    (eexists; split; [ reflexivity | ]; cbn -[append_to];
     rewrite ?contents_append_to; repeat split; reflexivity).
Qed.

(** X9. A [stop] during which nothing raises, on a controller that is
    logging into an open file, closes the file after writing out what the
    file object held back: the disk then holds everything that was written
    to the log, and the controller is stopped. *)
Theorem stop_flushes_and_closes (env : StopEnv) (w : World) :
  ready w = true ->
  quiet_stop env = true ->
  exists w',
    stop env w = (Return tt, w')
    /\ json_logging_enabled (self w') = false
    /\ file_state w' = (fun s => (s.1, true)) <$> file_state w
    /\ log_on_disk w' = log_text w
    /\ log_pending w' = EmptyString
    /\ process_reaped (self w') = true.
Proof.
  intros Hready Hquiet.
  destruct (stop_quiet_on_ready env w Hready Hquiet) as (w' & H).
  exists w'. exact H.
Qed.

Lemma stop_close_fails (env : StopEnv) (w : World) (n : nat) (e : Exn) :
  ready w = true ->
  close_result env = IoError n e ->
  exists w',
    stop env w = (Raise e, w')
    /\ mavproxy_process (self w') = mavproxy_process (self w)
    /\ console w' = console w
    /\ json_logging_enabled (self w') = false
    /\ file_state w' = (fun s => (s.1, true)) <$> file_state w
    /\ log_on_disk w' = log_on_disk w +:+ take_string n (log_pending w).
Proof.
  destruct w as [[a b c d pr lg jf en] fs out].
  unfold ready, file_state, log_on_disk, log_pending.
  cbn [self json_logging_enabled json_log_file mavproxy_process].
  intros Hready Hclose.
  destruct jf as [ [nm [ | ] pd] | ], en; try discriminate Hready.
  unfold stop, file_close. unfold_py.
  cbn [self json_logging_enabled json_log_file mavproxy_process].
  rewrite Hclose. cbn -[append_to].
  eexists; split; [ reflexivity | ]; cbn -[append_to].
  rewrite contents_append_to. repeat split; reflexivity.
Qed.

(** X10. When closing the log file raises, [stop] raises too, before it has
    done anything about the forwarder: the forwarder is as it was, neither
    signalled nor reaped, and nothing is printed.  Logging is disabled and
    the file is closed all the same. *)
Theorem stop_raises_when_close_fails (env : StopEnv) (w : World) (n : nat)
    (e : Exn) :
  ready w = true ->
  close_result env = IoError n e ->
  exists w',
    stop env w = (Raise e, w')
    /\ mavproxy_process (self w') = mavproxy_process (self w)
    /\ console w' = console w
    /\ json_logging_enabled (self w') = false
    /\ file_state w' = (fun s => (s.1, true)) <$> file_state w
    /\ log_on_disk w' = log_on_disk w +:+ take_string n (log_pending w).
Proof.
  intros Hready Hclose.
  destruct (stop_close_fails env w n e Hready Hclose) as (w' & H).
  exists w'. exact H.
Qed.

(** X11. A forwarder that has not exited five seconds after the signal is
    killed and reaped with the status of the kill, and [stop] reports it
    stopped. *)
Theorem stop_kills_after_timeout (env : StopEnv) (w : World) :
  mavproxy_process (self w) = Some {| returncode := None |} ->
  close_result env = IoOk ->
  terminate_result env = None ->
  wait_result env = TimeoutExpired ->
  kill_result env = None ->
  exists (w' : World) (before : list Line),
    stop env w = (Return tt, w')
    /\ mavproxy_process (self w')
       = Some {| returncode := Some (returncode_after_kill env) |}
    /\ console w' = console w ++ before ++ [MavproxyStopped].
Proof.
  destruct w as [[a b c d pr lg jf en] fs out].
  cbn [self mavproxy_process]. intros -> Hclose Hterm Hwait Hkill.
  unfold stop, file_close, signal_process, wait_timeout, wait_forever, reap.
  unfold_py. cbn [self json_logging_enabled json_log_file mavproxy_process].
  rewrite Hclose, Hterm, Hwait, Hkill.
  destruct en, jf as [ [nm [ | ] pd] | ]; cbn;
    eexists _, _; (split; [ reflexivity | ]); cbn;
    (split; [ reflexivity | ]);
    first [ rewrite <- app_assoc; reflexivity
          | instantiate (1 := []); reflexivity ].
Qed.

(** X12. When signalling the forwarder raises, [stop] prints the error and
    returns normally; the forwarder is left as it was, neither waited for
    nor killed. *)
Theorem stop_reports_signal_error (env : StopEnv) (w : World) (e : Exn) :
  mavproxy_process (self w) = Some {| returncode := None |} ->
  close_result env = IoOk ->
  terminate_result env = Some e ->
  exists (w' : World) (before : list Line),
    stop env w = (Return tt, w')
    /\ mavproxy_process (self w') = Some {| returncode := None |}
    /\ console w' = console w ++ before ++ [ErrorStoppingMavproxy e].
Proof.
  destruct w as [[a b c d pr lg jf en] fs out].
  cbn [self mavproxy_process]. intros -> Hclose Hterm.
  unfold stop, file_close, signal_process, wait_timeout, wait_forever, reap.
  unfold_py. cbn [self json_logging_enabled json_log_file mavproxy_process].
  rewrite Hclose, Hterm.
  destruct en, jf as [ [nm [ | ] pd] | ]; cbn;
    eexists _, _; (split; [ reflexivity | ]); cbn;
    (split; [ reflexivity | ]);
    first [ rewrite <- app_assoc; reflexivity
          | instantiate (1 := []); reflexivity ].
Qed.

(** ** More on starting *)

(** X13. When the log file cannot be opened, [start_json_logger] returns
    [False] having only printed the error: no file is created, no thread is
    started, and the controller is as it was. *)
Theorem failed_setup_creates_nothing (env : SetupEnv) (w : World) (e : Exn) :
  open_result env = Some e ->
  exists w',
    start_json_logger env w = (Return false, w')
    /\ self w' = self w
    /\ files w' = files w
    /\ console w' = console w ++ [FailedToSetupJsonLogging e].
Proof.
  intros Hopen. eexists. split.
  - apply (start_json_logger_failed env w e Hopen).
  - repeat split; reflexivity.
Qed.


Section RestartProperties.

Variable float_repr : Z -> string.

(** X15. [stop] is final.  Nothing sets the flag again, so a
    [start_json_logger] after a [stop] still opens a new log file and starts
    a thread, but the thread leaves its loop at once, a direct call logs
    nothing, and the new file stays empty. *)
Theorem restart_after_stop_logs_nothing (senv : StopEnv) (env : SetupEnv)
    (w : World) :
  open_result env = None ->
  let w0 := run (stop senv) w in
  exists w1,
    start_json_logger env w0 = (Return true, w1)
    /\ files w1 !! log_path env w0 = Some EmptyString
    /\ (forall (t : Turn) (rest : list Turn),
          json_logger_thread float_repr None (t :: rest) w1
          = (Return Exited,
             {| self := self w1; files := files w1;
                console := console w1 ++ [JsonLoggerConnected] |}))
    /\ (forall (cenv : CallEnv) (msg : MAVLinkMessage) (direction : pystr),
          log_mavlink_message float_repr cenv msg direction w1
          = (Return tt, w1)).
Proof.
  intros Hopen w0. pose proof (stop_disables_logging senv w) as Hen.
  fold w0 in Hen. eexists. split.
  { unfold start_json_logger. unfold mbind, Py_bind.
    rewrite (setup_json_logging_opened env w0 Hopen). reflexivity. }
  split; [ cbn [files]; apply lookup_insert_eq | ].
  split.
  - intros t rest. unfold json_logger_thread. cbn [capture_loop].
    unfold_py. cbn. rewrite Hen. reflexivity.
  - intros cenv msg direction. apply log_mavlink_message_not_logging.
    unfold logging. cbn. rewrite Hen. reflexivity.
Qed.

End RestartProperties.

(** ** The text of a record is printable ASCII *)

Lemma printable_app (a b : string) :
  printable (a +:+ b) = printable a && printable b.
Proof.
  induction a as [ | c a IH ]; [ reflexivity | ].
  change (is_printable c && printable (a +:+ b)
          = is_printable c && printable a && printable b).
  rewrite IH, andb_assoc. reflexivity.
Qed.

Lemma printable_concat (sep : string) (parts : list string) :
  printable sep = true ->
  Forall (fun s => printable s = true) parts ->
  printable (String.concat sep parts) = true.
Proof.
  intros Hsep. induction 1 as [ | s parts Hs Hparts IH ]; [ reflexivity | ].
  cbn [String.concat]. destruct parts as [ | s' parts ]; [ exact Hs | ].
  change (printable (s +:+ sep +:+ String.concat sep (s' :: parts)) = true).
  rewrite !printable_app, Hs, Hsep, IH. reflexivity.
Qed.

Lemma hex_digit_printable (d : N) : is_printable (hex_digit d) = true.
Proof.
  unfold hex_digit. generalize (N.to_nat d) as n. intros n.
  do 16 (destruct n as [ | n ]; [ reflexivity | ]).
  destruct n; reflexivity.
Qed.

Lemma printable_hex4 (n : N) : printable (hex4 n) = true.
Proof.
  unfold hex4. cbn [printable]. rewrite !hex_digit_printable. reflexivity.
Qed.

Lemma printable_escape_char (c : N) : printable (escape_char c) = true.
Proof.
  unfold escape_char.
  repeat match goal with
  | |- context [if ?b then _ else _] => destruct b eqn:?
  end;
  rewrite ?printable_app, ?printable_hex4; try reflexivity.
  bool_hyps. cbn [printable]. unfold is_printable.
  rewrite N_ascii_embedding by lia.
  rewrite andb_true_r, andb_true_iff, !N.leb_le. split; assumption.
Qed.

Lemma printable_py_encode_basestring_ascii (s : pystr) :
  printable (py_encode_basestring_ascii s) = true.
Proof.
  unfold py_encode_basestring_ascii.
  change (is_printable DQUOTE
          && printable (String.concat "" (map escape_char s)
                        +:+ String DQUOTE "") = true).
  rewrite printable_app, printable_concat; [ reflexivity | reflexivity | ].
  apply Forall_map, Forall_forall. intros c _. apply printable_escape_char.
Qed.

Lemma printable_string_of_uint (d : Decimal.uint) :
  printable (NilEmpty.string_of_uint d) = true.
Proof. induction d; cbn [NilEmpty.string_of_uint printable]; auto. Qed.

Lemma printable_int_repr (z : Z) : printable (int_repr z) = true.
Proof.
  unfold int_repr, NilZero.string_of_int, NilZero.string_of_uint.
  destruct (Z.to_int z) as [ d | d ]; destruct d;
    cbn [printable]; rewrite ?(printable_string_of_uint (_ d));
    try reflexivity; apply (printable_string_of_uint (_ d)).
Qed.

Section PrintableProperties.

Variable float_repr : Z -> string.

Hypothesis float_repr_printable :
  forall bits, printable (float_repr bits) = true.

Lemma printable_floatstr (bits : Z) :
  printable (floatstr float_repr bits) = true.
Proof.
  unfold floatstr.
  repeat match goal with
  | |- context [if ?b then _ else _] => destruct b
  end; try reflexivity.
  apply float_repr_printable.
Qed.

Lemma printable_json_dumps (v : PyVal) :
  forall text, json_dumps float_repr v = Return text -> printable text = true.
Proof.
  induction v as [ | b | z | bits | s | b | b | items IH | elts IH | elts IH
                 | cls ] using PyVal_nested_ind;
    cbn [json_dumps]; intros text Htext; try discriminate Htext.
  - injection Htext as <-. reflexivity.
  - destruct b; injection Htext as <-; reflexivity.
  - injection Htext as <-. apply printable_int_repr.
  - injection Htext as <-. apply printable_floatstr.
  - injection Htext as <-. apply printable_py_encode_basestring_ascii.
  - apply Outcome_bind_Return_inv in Htext as (parts & Hc & Htext).
    injection Htext as <-.
    apply collect_map_Return in Hc.
    rewrite !printable_app.
    rewrite printable_concat; [ reflexivity | reflexivity | ].
    clear -IH Hc. induction Hc as [ | [k v] p items parts Hp _ IHc ];
      constructor.
    + apply Forall_inv in IH. cbn [fst snd] in *.
      apply Outcome_bind_Return_inv in Hp as (kt & _ & Hp).
      apply Outcome_bind_Return_inv in Hp as (vt & Hvt & Hp).
      injection Hp as <-.
      rewrite !printable_app, printable_py_encode_basestring_ascii.
      rewrite (IH vt Hvt). reflexivity.
    + apply IHc. eapply Forall_inv_tail, IH.
  - apply Outcome_bind_Return_inv in Htext as (parts & Hc & Htext).
    injection Htext as <-.
    apply collect_map_Return in Hc.
    rewrite !printable_app.
    rewrite printable_concat; [ reflexivity | reflexivity | ].
    clear -IH Hc. induction Hc as [ | v p elts parts Hp _ IHc ]; constructor.
    + apply (Forall_inv IH), Hp.
    + apply IHc. eapply Forall_inv_tail, IH.
  - apply Outcome_bind_Return_inv in Htext as (parts & Hc & Htext).
    injection Htext as <-.
    apply collect_map_Return in Hc.
    rewrite !printable_app.
    rewrite printable_concat; [ reflexivity | reflexivity | ].
    clear -IH Hc. induction Hc as [ | v p elts parts Hp _ IHc ]; constructor.
    + apply (Forall_inv IH), Hp.
    + apply IHc. eapply Forall_inv_tail, IH.
Qed.

(** X16. The text written for a record is printable ASCII, whatever code
    points the message carries: control characters, quotes, backslashes and
    everything beyond the tilde are escaped. *)
Theorem record_text_is_printable_ascii (timestamp direction : pystr)
    (msg : MAVLinkMessage) (text : string) :
  json_dumps float_repr (json_entry timestamp msg direction) = Return text ->
  printable text = true.
Proof. apply printable_json_dumps. Qed.

End PrintableProperties.

(** ** The forwarder *)

Section ForwarderProperties.

Import Forwarder.

Variable float_repr : Z -> string.

Ltac unfold_main :=
  unfold emit, set_logger_thread, set_sigint_handler, fail, get_host,
         sys_exit, keyboard_interrupt, try_except_class_then,
         try_except_keyboard_interrupt;
  unfold mbind, Main_bind, mret, Main_ret.

Lemma lift_returns {A : Type} (m : Py A) (h : Host) (a : A) (w' : World) :
  m (world h) = (Return a, w') ->
  lift m h
  = (Finished a,
     {| world := w';
        stdout := stdout h
                  ++ map FromLogger
                         (drop (length (console (world h))) (console w'));
        logger_thread := logger_thread h;
        sigint_handler := sigint_handler h |}).
Proof. intros E. unfold lift. rewrite E. reflexivity. Qed.

Lemma lift_raises {A : Type} (m : Py A) (h : Host) (e : Exn) (w' : World) :
  m (world h) = (Raise e, w') ->
  lift m h
  = (@Failed A e,
     {| world := w';
        stdout := stdout h
                  ++ map FromLogger
                         (drop (length (console (world h))) (console w'));
        logger_thread := logger_thread h;
        sigint_handler := sigint_handler h |}).
Proof. intros E. unfold lift. rewrite E. reflexivity. Qed.

Lemma start_json_logger_opened (env : SetupEnv) (w : World) :
  open_result env = None ->
  start_json_logger env w
  = (Return true,
     {| self := set_json_logger (Some {| daemon := true |})
                  (set_json_log_file
                     (Some {| name := log_path env w; closed := false;
                              pending := "" |})
                     (self w));
        files := <[log_path env w := ""]> (files w);
        console := console w ++ [JsonLoggingTo (log_path env w)] |}).
Proof.
  intros Hopen. unfold start_json_logger. unfold mbind, Py_bind.
  rewrite (setup_json_logging_opened env w Hopen). reflexivity.
Qed.

(** What [start_mavproxy] does when the command cannot be spawned. *)
Lemma start_mavproxy_spawn_fails (env : StartEnv) (h : Host) (e : Exn) :
  (forall cmd, popen_result env cmd = Some e) ->
  exists h',
    start_mavproxy env h = (Finished false, h')
    /\ world h' = world h
    /\ logger_thread h' = logger_thread h
    /\ sigint_handler h' = sigint_handler h.
Proof.
  intros Hpopen. destruct h as [w out th sg].
  unfold start_mavproxy, setup_logging, popen. unfold_main. cbn.
  rewrite Hpopen. cbn.
  destruct (decide (exn_class e = "FileNotFoundError"));
    eexists; (split; [ reflexivity | ]); cbn; repeat split; reflexivity.
Qed.

(** What [start_mavproxy] does when the forwarder has exited within three
    seconds. *)
Lemma start_mavproxy_exits_early (env : StartEnv) (h : Host) (rc : Z) :
  (forall cmd, popen_result env cmd = None) ->
  exited_after_start env = Some rc ->
  exists h',
    start_mavproxy env h = (Finished false, h')
    /\ self (world h')
       = set_mavproxy_process (Some {| returncode := Some rc |})
                              (self (world h))
    /\ files (world h') = files (world h)
    /\ console (world h') = console (world h)
    /\ logger_thread h' = logger_thread h
    /\ sigint_handler h' = sigint_handler h.
Proof.
  intros Hpopen Hexit. destruct h as [[me fs c] out th sg].
  unfold start_mavproxy, setup_logging, popen, poll, reap, lift.
  unfold_main. unfold_py. cbn. rewrite Hpopen. cbn. rewrite Hexit. cbn.
  eexists; (split; [ reflexivity | ]); cbn. repeat split; reflexivity.
Qed.

(** What [start_mavproxy] does when the forwarder starts. *)
Lemma start_mavproxy_started (env : StartEnv) (h : Host) :
  forwarder_starts env ->
  exists h',
    start_mavproxy env h = (Finished true, h')
    /\ sigint_handler h' = sigint_handler h
    /\ mavproxy_process (self (world h')) = Some {| returncode := None |}
    /\ json_logging_enabled (self (world h'))
       = json_logging_enabled (self (world h))
    /\ ((json_logging_enabled (self (world h)) = true
         /\ open_result (json_setup env) = None
         /\ file_state (world h')
            = Some (log_path (json_setup env) (world h), false)
         /\ log_on_disk (world h') = EmptyString
         /\ log_pending (world h') = EmptyString
         /\ json_logger (self (world h')) = Some {| daemon := true |}
         /\ logger_thread h' = Created)
        \/ ((json_logging_enabled (self (world h)) = false
             \/ exists e, open_result (json_setup env) = Some e)
            /\ files (world h') = files (world h)
            /\ json_log_file (self (world h'))
               = json_log_file (self (world h))
            /\ json_logger (self (world h')) = json_logger (self (world h))
            /\ logger_thread h' = logger_thread h)).
Proof.
  intros [Hpopen Halive].
  destruct h as [[[a b c d pr lg jf en] fs co] out th sg].
  unfold start_mavproxy, setup_logging, popen, poll, reap, lift,
         start_json_logger_thread, start_json_logger, setup_json_logging.
  unfold_main. unfold_py. cbn -[String.concat]. rewrite Hpopen.
  cbn -[String.concat]. rewrite Halive. cbn -[String.concat].
  destruct en; cbn -[String.concat];
    [ destruct (open_result (json_setup env)) as [ e | ] eqn:Hopen;
      cbn -[String.concat] | ];
    (eexists; split; [ reflexivity | ]; cbn -[String.concat]).
  - repeat split; try reflexivity. right. repeat split; eauto.
  - repeat split; try reflexivity. left.
    unfold file_state, log_on_disk, log_pending, log_path, contents.
    cbn. rewrite lookup_insert_eq. repeat split; reflexivity.
  - repeat split; try reflexivity. right. repeat split; auto.
Qed.

Lemma logging_kept_refl (w : World) : logging_kept w w.
Proof. split; reflexivity. Qed.

Lemma logging_kept_trans (w1 w2 w3 : World) :
  logging_kept w1 w2 -> logging_kept w2 w3 -> logging_kept w1 w3.
Proof. intros [H1 H2] [H3 H4]. split; congruence. Qed.

Lemma logging_kept_ready (w w' : World) :
  logging_kept w w' -> ready w' = ready w.
Proof. intros [Hen Hfs]. apply (ready_file_state w w' Hfs Hen). Qed.

Lemma json_logger_thread_effect (connect : option Exn) (ts : list Turn)
    (w : World) :
  exists (st : LoopState) (w' : World),
    json_logger_thread float_repr connect ts w = (Return st, w')
    /\ logging_kept w w'
    /\ mavproxy_process (self w') = mavproxy_process (self w).
Proof.
  unfold json_logger_thread. unfold_py.
  destruct connect as [ e | ].
  - eexists _, _. split; [ reflexivity | ]. repeat split; reflexivity.
  - destruct (capture_loop_effect float_repr ts
                {| self := self w; files := files w;
                   console := console w ++ [JsonLoggerConnected] |})
      as (st & w' & added & printed & E & Hen & Hfs & Hpr & _).
    rewrite E. exists st, w'. split; [ reflexivity | ].
    split; [ split | ]; assumption.
Qed.

(** The logger thread, whatever it does, returns control with the flag,
    the state of the log file object, the forwarder and the handler as they
    were. *)
Lemma logger_runs_effect (act : Activity) (h : Host) :
  exists h',
    logger_runs float_repr act h = (Finished tt, h')
    /\ logging_kept (world h) (world h')
    /\ mavproxy_process (self (world h'))
       = mavproxy_process (self (world h))
    /\ sigint_handler h' = sigint_handler h.
Proof.
  unfold logger_runs. unfold_main.
  destruct (logger_thread h) eqn:Hth.
  - exists h. repeat split; reflexivity.
  - destruct (json_logger_thread_effect (connect_result act) (turns act)
                (world h)) as (st & w' & E & Hkept & Hpr).
    rewrite (lift_returns _ h st w' E).
    eexists. split; [ reflexivity | ]. cbn. repeat split; try assumption;
      apply Hkept.
  - destruct (capture_loop_effect float_repr (turns act) (world h))
      as (st & w' & added & printed & E & Hen & Hfs & Hpr & _).
    rewrite (lift_returns _ h st w' E).
    eexists. split; [ reflexivity | ]. cbn. repeat split; assumption.
  - exists h. repeat split; reflexivity.
Qed.

Lemma poll_running (h : Host) :
  forwarder_running (self (world h)) = true ->
  poll None h = (Finished None, h).
Proof.
  unfold forwarder_running, poll. unfold_main.
  destruct (mavproxy_process (self (world h))) as [ [[rc | ]] | ];
    try discriminate. reflexivity.
Qed.

Lemma poll_exited (h : Host) (rc : Z) :
  forwarder_running (self (world h)) = true ->
  exists h',
    poll (Some rc) h = (Finished (Some rc), h')
    /\ logging_kept (world h) (world h')
    /\ mavproxy_process (self (world h'))
       = Some {| returncode := Some rc |}
    /\ sigint_handler h' = sigint_handler h.
Proof.
  unfold forwarder_running, poll, reap, lift. unfold_main. unfold_py.
  destruct h as [[[a b c d pr lg jf en] fs co] out th sg]. cbn.
  destruct pr as [ [[rc0 | ]] | ]; try discriminate. intros _. cbn.
  eexists. split; [ reflexivity | ]. cbn. repeat split; reflexivity.
Qed.

Lemma forwarder_running_process (me me' : MAVProxyWithJSON) :
  mavproxy_process me' = mavproxy_process me ->
  forwarder_running me' = forwarder_running me.
Proof. unfold forwarder_running. intros ->. reflexivity. Qed.

(** Seconds of the loop of [run] without interrupt and with the forwarder
    still there are passed, whatever the logger thread does in them. *)
Lemma run_loop_quiet (on_stop : StopEnv) (before : list Tick) :
  forall h : Host,
    forallb quiet_tick before = true ->
    forwarder_running (self (world h)) = true ->
    exists h1,
      (forall rest,
         run_loop float_repr on_stop (before ++ rest) h
         = run_loop float_repr on_stop rest h1)
      /\ logging_kept (world h) (world h1)
      /\ forwarder_running (self (world h1)) = true
      /\ sigint_handler h1 = sigint_handler h.
Proof.
  induction before as [ | t before IH ]; intros h Hquiet Hrun.
  - exists h. repeat split; try reflexivity. exact Hrun.
  - cbn [forallb] in Hquiet. apply andb_true_iff in Hquiet as [Ht Hquiet].
    unfold quiet_tick in Ht. apply andb_true_iff in Ht as [Hint Hex].
    apply negb_true_iff in Hint.
    destruct (exited t) as [ rc | ] eqn:Hexited; [ discriminate Hex | ].
    destruct (logger_runs_effect (meanwhile t) h)
      as (h0 & E0 & Hkept0 & Hpr0 & Hsg0).
    assert (Hrun0 : forwarder_running (self (world h0)) = true).
    { rewrite (forwarder_running_process _ _ Hpr0). exact Hrun. }
    destruct (IH h0 Hquiet Hrun0) as (h1 & Hloop & Hkept1 & Hrun1 & Hsg1).
    exists h1. split; [ | split; [ | split ] ].
    + intros rest. cbn [app run_loop]. unfold mbind at 1, Main_bind at 1.
      rewrite E0, Hint, Hexited.
      unfold mbind at 1, Main_bind at 1. unfold mret at 1, Main_ret at 1.
      unfold mbind at 1, Main_bind at 1.
      rewrite (poll_running h0 Hrun0). apply Hloop.
    + apply (logging_kept_trans _ _ _ Hkept0 Hkept1).
    + exact Hrun1.
    + congruence.
Qed.

(** The turn of the loop of [run] in which the forwarder is found gone. *)
Lemma run_loop_forwarder_gone (on_stop : StopEnv) (t : Tick)
    (rest : list Tick) (h : Host) (rc : Z) :
  interrupted t = false ->
  exited t = Some rc ->
  forwarder_running (self (world h)) = true ->
  exists h',
    run_loop float_repr on_stop (t :: rest) h = (Finished Returned, h')
    /\ logging_kept (world h) (world h')
    /\ mavproxy_process (self (world h'))
       = Some {| returncode := Some rc |}
    /\ sigint_handler h' = sigint_handler h.
Proof.
  intros Hint Hexited Hrun.
  destruct (logger_runs_effect (meanwhile t) h)
    as (h0 & E0 & Hkept0 & Hpr0 & Hsg0).
  assert (Hrun0 : forwarder_running (self (world h0)) = true).
  { rewrite (forwarder_running_process _ _ Hpr0). exact Hrun. }
  destruct (poll_exited h0 rc Hrun0) as (h1 & E1 & Hkept1 & Hpr1 & Hsg1).
  cbn [run_loop]. unfold mbind at 1, Main_bind at 1.
  rewrite E0, Hint, Hexited.
  unfold mbind at 1, Main_bind at 1. unfold mret at 1, Main_ret at 1.
  unfold mbind at 1, Main_bind at 1. rewrite E1.
  unfold_main. eexists. split; [ reflexivity | ]. cbn.
  split; [ apply (logging_kept_trans _ _ _ Hkept0 Hkept1) | ].
  split; [ exact Hpr1 | congruence ].
Qed.

Lemma stop_on_running_ready (env : StopEnv) (w : World) :
  ready w = true ->
  quiet_stop env = true ->
  exists w',
    stop env w = (Return tt, w')
    /\ json_logging_enabled (self w') = false
    /\ file_state w' = (fun s => (s.1, true)) <$> file_state w
    /\ log_pending w' = EmptyString
    /\ process_reaped (self w') = true.
Proof.
  intros Hready Hquiet.
  destruct (stop_quiet_on_ready env w Hready Hquiet)
    as (w' & E & Hen & Hfs & _ & Hpend & Hreaped).
  exists w'. auto.
Qed.

(** The turn of the loop of [run] in which an interrupt arrives, without
    and with the handler of [main]. *)
Lemma run_loop_keyboard_interrupt (on_stop : StopEnv) (t : Tick)
    (rest : list Tick) (h : Host) :
  interrupted t = true ->
  sigint_handler h = false ->
  exists h0,
    run_loop float_repr on_stop (t :: rest) h = (KeyboardInterrupt, h0)
    /\ logging_kept (world h) (world h0)
    /\ mavproxy_process (self (world h0))
       = mavproxy_process (self (world h))
    /\ sigint_handler h0 = false.
Proof.
  intros Hint Hsg.
  destruct (logger_runs_effect (meanwhile t) h)
    as (h0 & E0 & Hkept0 & Hpr0 & Hsg0).
  rewrite Hsg in Hsg0.
  exists h0. split; [ | auto ].
  cbn [run_loop]. unfold mbind at 1, Main_bind at 1.
  rewrite E0, Hint. unfold mbind at 1, Main_bind at 1.
  unfold sigint. unfold_main. rewrite Hsg0. reflexivity.
Qed.

Lemma run_loop_signal_handler (on_stop : StopEnv) (t : Tick)
    (rest : list Tick) (h : Host) :
  interrupted t = true ->
  sigint_handler h = true ->
  ready (world h) = true ->
  quiet_stop on_stop = true ->
  exists h',
    run_loop float_repr on_stop (t :: rest) h = (SystemExit 0, h')
    /\ json_logging_enabled (self (world h')) = false
    /\ file_state (world h')
       = (fun s => (s.1, true)) <$> file_state (world h)
    /\ log_pending (world h') = EmptyString
    /\ process_reaped (self (world h')) = true.
Proof.
  intros Hint Hsg Hready Hquiet.
  destruct (logger_runs_effect (meanwhile t) h)
    as (h0 & E0 & Hkept0 & Hpr0 & Hsg0).
  rewrite Hsg in Hsg0.
  assert (Hready0 : ready (world h0) = true).
  { rewrite (logging_kept_ready _ _ Hkept0). exact Hready. }
  cbn [run_loop]. unfold mbind at 1, Main_bind at 1.
  rewrite E0, Hint. unfold mbind at 1, Main_bind at 1.
  unfold sigint, signal_handler. unfold_main. rewrite Hsg0. cbn.
  destruct (stop_on_running_ready on_stop (world h0) Hready0 Hquiet)
    as (w' & E & Hen & Hfs & Hpend & Hreaped).
  unfold lift. cbn. rewrite E. cbn.
  eexists. split; [ reflexivity | ]. cbn.
  destruct Hkept0 as [_ Hfs0]. rewrite Hfs, Hfs0. auto.
Qed.

Lemma run_loop_handler_close_fails (on_stop : StopEnv) (t : Tick)
    (rest : list Tick) (h : Host) (n : nat) (e : Exn) :
  interrupted t = true ->
  sigint_handler h = true ->
  ready (world h) = true ->
  close_result on_stop = IoError n e ->
  exists h',
    run_loop float_repr on_stop (t :: rest) h = (Failed e, h')
    /\ json_logging_enabled (self (world h')) = false
    /\ mavproxy_process (self (world h'))
       = mavproxy_process (self (world h)).
Proof.
  intros Hint Hsg Hready Hclose.
  destruct (logger_runs_effect (meanwhile t) h)
    as (h0 & E0 & Hkept0 & Hpr0 & Hsg0).
  rewrite Hsg in Hsg0.
  assert (Hready0 : ready (world h0) = true).
  { rewrite (logging_kept_ready _ _ Hkept0). exact Hready. }
  cbn [run_loop]. unfold mbind at 1, Main_bind at 1.
  rewrite E0, Hint. unfold mbind at 1, Main_bind at 1.
  unfold sigint, signal_handler. unfold_main. rewrite Hsg0. cbn.
  destruct (stop_close_fails on_stop (world h0) n e Hready0 Hclose)
    as (w' & E & Hpr & _ & Hoff & _).
  unfold lift. cbn. rewrite E. cbn.
  eexists. split; [ reflexivity | ]. cbn.
  split; [ exact Hoff | congruence ].
Qed.


(** X17. When the command cannot be spawned, [start_mavproxy] returns
    [False] and has set up nothing: the controller, the files and the
    console of the logger are as they were, and no logger thread is
    started. *)
Theorem start_mavproxy_sets_up_nothing_without_forwarder (env : StartEnv)
    (h : Host) (e : Exn) :
  (forall cmd, popen_result env cmd = Some e) ->
  exists h',
    start_mavproxy env h = (Finished false, h')
    /\ world h' = world h
    /\ logger_thread h' = logger_thread h
    /\ sigint_handler h' = sigint_handler h.
Proof.
  intros Hpopen.
  destruct (start_mavproxy_spawn_fails env h e Hpopen) as (h' & H).
  exists h'. exact H.
Qed.

(** X18. When the forwarder has exited within three seconds,
    [start_mavproxy] returns [False]; the controller keeps the dead process
    with its status, and nothing of the JSON logging is set up: no file is
    created and no logger thread is started. *)
Theorem start_mavproxy_gives_up_on_early_exit (env : StartEnv) (h : Host)
    (rc : Z) :
  (forall cmd, popen_result env cmd = None) ->
  exited_after_start env = Some rc ->
  exists h',
    start_mavproxy env h = (Finished false, h')
    /\ self (world h')
       = set_mavproxy_process (Some {| returncode := Some rc |})
                              (self (world h))
    /\ files (world h') = files (world h)
    /\ console (world h') = console (world h)
    /\ logger_thread h' = logger_thread h
    /\ sigint_handler h' = sigint_handler h.
Proof.
  intros Hpopen Hexit.
  destruct (start_mavproxy_exits_early env h rc Hpopen Hexit) as (h' & H).
  exists h'. exact H.
Qed.

(** X19. [start_mavproxy] does not look at the result of
    [start_json_logger]: with the forwarder running it returns [True] also
    when the JSON log cannot be opened, or when logging is disabled; there
    is then no log file, no logger thread, and the files are as they
    were. *)
Theorem start_mavproxy_succeeds_without_json_log (env : StartEnv)
    (h : Host) :
  forwarder_starts env ->
  json_logging_enabled (self (world h)) = false
  \/ (exists e, open_result (json_setup env) = Some e) ->
  exists h',
    start_mavproxy env h = (Finished true, h')
    /\ forwarder_running (self (world h')) = true
    /\ files (world h') = files (world h)
    /\ json_log_file (self (world h')) = json_log_file (self (world h))
    /\ json_logger (self (world h')) = json_logger (self (world h))
    /\ logger_thread h' = logger_thread h.
Proof.
  intros Hstarts Hnolog.
  destruct (start_mavproxy_started env h Hstarts)
    as (h' & E & _ & Hpr & _ & Hcases).
  exists h'. split; [ exact E | ].
  split; [ unfold forwarder_running; rewrite Hpr; reflexivity | ].
  destruct Hcases as [ (Hen & Hopen & _) | (_ & Hfiles & Hjf & Hlg & Hth) ].
  - destruct Hnolog as [ Hoff | [e He] ]; congruence.
  - auto.
Qed.

(** X20. With the forwarder running, logging enabled and the log file
    opened, [start_mavproxy] returns [True] with the controller logging into
    an open, empty log and the logger thread started. *)
Theorem start_mavproxy_starts_the_logger (env : StartEnv) (h : Host) :
  forwarder_starts env ->
  json_logging_enabled (self (world h)) = true ->
  open_result (json_setup env) = None ->
  exists h',
    start_mavproxy env h = (Finished true, h')
    /\ forwarder_running (self (world h')) = true
    /\ ready (world h') = true
    /\ file_state (world h')
       = Some (log_path (json_setup env) (world h), false)
    /\ log_on_disk (world h') = EmptyString
    /\ log_pending (world h') = EmptyString
    /\ logger_thread h' = Created.
Proof.
  intros Hstarts Hen Hopen.
  destruct (start_mavproxy_started env h Hstarts)
    as (h' & E & _ & Hpr & Hen' & Hcases).
  exists h'. split; [ exact E | ].
  split; [ unfold forwarder_running; rewrite Hpr; reflexivity | ].
  destruct Hcases as [ (_ & _ & Hfs & Hdisk & Hpend & _ & Hth)
                     | ([ Hoff | [e He] ] & _) ]; try congruence.
  repeat split; try assumption.
  unfold ready. unfold file_state in Hfs.
  destruct (json_log_file (self (world h'))) as [ f | ];
    [ | discriminate Hfs ].
  cbn in Hfs. injection Hfs as _ Hclosed. rewrite Hclosed, Hen', Hen.
  reflexivity.
Qed.

Lemma start_mavproxy_ready (env : StartEnv) (h : Host) :
  forwarder_starts env ->
  json_logging_enabled (self (world h)) = true ->
  open_result (json_setup env) = None ->
  exists h1,
    start_mavproxy env h = (Finished true, h1)
    /\ forwarder_running (self (world h1)) = true
    /\ ready (world h1) = true
    /\ file_state (world h1)
       = Some (log_path (json_setup env) (world h), false)
    /\ sigint_handler h1 = sigint_handler h.
Proof.
  intros Hstarts Hen Hopen.
  destruct (start_mavproxy_started env h Hstarts)
    as (h' & E & Hsg & Hpr & Hen' & Hcases).
  exists h'. split; [ exact E | ].
  split; [ unfold forwarder_running; rewrite Hpr; reflexivity | ].
  destruct Hcases as [ (_ & _ & Hfs & _) | ([ Hoff | [e He] ] & _) ];
    try congruence.
  split; [ | auto ].
  unfold ready. unfold file_state in Hfs.
  destruct (json_log_file (self (world h'))) as [ f | ];
    [ | discriminate Hfs ].
  cbn in Hfs. injection Hfs as _ Hclosed. rewrite Hclosed, Hen', Hen.
  reflexivity.
Qed.

(** X21. When the forwarder is found gone, [run] reports it and returns
    without calling [stop]: whatever the logger thread has done meanwhile,
    logging is still enabled and the log file is still open. *)
Theorem run_leaves_the_log_open_when_forwarder_exits (env : StartEnv)
    (on_stop : StopEnv) (before : list Tick) (t : Tick) (rest : list Tick)
    (h : Host) (rc : Z) :
  forwarder_starts env ->
  json_logging_enabled (self (world h)) = true ->
  open_result (json_setup env) = None ->
  forallb quiet_tick before = true ->
  interrupted t = false ->
  exited t = Some rc ->
  exists h',
    run float_repr env on_stop (before ++ t :: rest) h
    = (Finished Returned, h')
    /\ mavproxy_process (self (world h'))
       = Some {| returncode := Some rc |}
    /\ ready (world h') = true
    /\ file_state (world h')
       = Some (log_path (json_setup env) (world h), false).
Proof.
  intros Hstarts Hen Hopen Hquiet Hint Hexited.
  destruct (start_mavproxy_ready env h Hstarts Hen Hopen)
    as (h1 & E1 & Hrun1 & Hready1 & Hfs1 & _).
  destruct (run_loop_quiet on_stop before h1 Hquiet Hrun1)
    as (h2 & Hloop & Hkept2 & Hrun2 & _).
  destruct (run_loop_forwarder_gone on_stop t rest h2 rc Hint Hexited Hrun2)
    as (h3 & E3 & Hkept3 & Hpr3 & _).
  exists h3. split.
  - unfold run. unfold mbind at 1, Main_bind at 1. rewrite E1.
    cbn [negb]. unfold try_except_keyboard_interrupt.
    rewrite Hloop, E3. reflexivity.
  - split; [ exact Hpr3 | ].
    pose proof (logging_kept_trans _ _ _ Hkept2 Hkept3) as Hkept.
    split; [ rewrite (logging_kept_ready _ _ Hkept); exact Hready1 | ].
    destruct Hkept as [_ Hfs]. rewrite Hfs. exact Hfs1.
Qed.

(** X22. Without the handler of [main], an interrupt during the loop of
    [run] makes [run] call [stop] and return: logging is disabled, the log
    file is closed with nothing held back, and the forwarder is reaped. *)
Theorem run_stops_on_keyboard_interrupt (env : StartEnv)
    (on_stop : StopEnv) (before : list Tick) (t : Tick) (rest : list Tick)
    (h : Host) :
  forwarder_starts env ->
  json_logging_enabled (self (world h)) = true ->
  open_result (json_setup env) = None ->
  sigint_handler h = false ->
  forallb quiet_tick before = true ->
  interrupted t = true ->
  quiet_stop on_stop = true ->
  exists h',
    run float_repr env on_stop (before ++ t :: rest) h
    = (Finished Returned, h')
    /\ json_logging_enabled (self (world h')) = false
    /\ file_state (world h')
       = Some (log_path (json_setup env) (world h), true)
    /\ log_pending (world h') = EmptyString
    /\ process_reaped (self (world h')) = true.
Proof.
  intros Hstarts Hen Hopen Hsg Hquiet Hint Hstop.
  destruct (start_mavproxy_ready env h Hstarts Hen Hopen)
    as (h1 & E1 & Hrun1 & Hready1 & Hfs1 & Hsg1).
  destruct (run_loop_quiet on_stop before h1 Hquiet Hrun1)
    as (h2 & Hloop & Hkept2 & Hrun2 & Hsg2).
  assert (Hsg2' : sigint_handler h2 = false) by congruence.
  destruct (run_loop_keyboard_interrupt on_stop t rest h2 Hint Hsg2')
    as (h3 & E3 & Hkept3 & Hpr3 & _).
  pose proof (logging_kept_trans _ _ _ Hkept2 Hkept3) as Hkept.
  assert (Hready3 : ready (world h3) = true).
  { rewrite (logging_kept_ready _ _ Hkept). exact Hready1. }
  destruct (stop_on_running_ready on_stop (world h3) Hready3 Hstop)
    as (w' & E & Hoff & Hfs & Hpend & Hreaped).
  eexists. split.
  - unfold run. unfold mbind at 1, Main_bind at 1. rewrite E1.
    cbn [negb]. unfold try_except_keyboard_interrupt.
    rewrite Hloop, E3. unfold_main. cbn. unfold lift. cbn. rewrite E.
    reflexivity.
  - cbn. destruct Hkept as [_ Hfs3]. rewrite Hfs, Hfs3, Hfs1. auto.
Qed.

(** X23. Under [main], an interrupt during the loop of [run] is taken by
    the handler of [main]: [stop] is called and the program exits with
    status 0, with logging disabled, the log file closed with nothing held
    back and the forwarder reaped; [run] does not return. *)
Theorem main_exits_on_interrupt (env : MainEnv) (before : list Tick)
    (t : Tick) (rest : list Tick) (h : Host) :
  makedirs_result env = None ->
  forwarder_starts (start_env env) ->
  open_result (json_setup (start_env env)) = None ->
  forallb quiet_tick before = true ->
  interrupted t = true ->
  quiet_stop (stop_env env) = true ->
  exists h',
    main float_repr env (before ++ t :: rest) h = (SystemExit 0, h')
    /\ json_logging_enabled (self (world h')) = false
    /\ file_state (world h')
       = Some ("logs/mavlink_messages_"
               +:+ local_now_strftime (json_setup (start_env env))
               +:+ ".jsonl", true)
    /\ log_pending (world h') = EmptyString
    /\ process_reaped (self (world h')) = true.
Proof.
  intros Hdirs Hstarts Hopen Hquiet Hint Hstop.
  unfold main, new_forwarder. rewrite Hdirs. unfold_main. unfold lift.
  unfold_py. cbn -[run].
  match goal with
  | |- context [run _ _ _ _ ?h0] => set (h1 := h0)
  end.
  assert (Hen1 : json_logging_enabled (self (world h1)) = true)
    by reflexivity.
  destruct (start_mavproxy_ready (start_env env) h1 Hstarts Hen1 Hopen)
    as (h2 & E2 & Hrun2 & Hready2 & Hfs2 & Hsg2).
  destruct (run_loop_quiet (stop_env env) before h2 Hquiet Hrun2)
    as (h3 & Hloop & Hkept3 & Hrun3 & Hsg3).
  assert (Hsg3' : sigint_handler h3 = true).
  { rewrite Hsg3, Hsg2. reflexivity. }
  assert (Hready3 : ready (world h3) = true).
  { rewrite (logging_kept_ready _ _ Hkept3). exact Hready2. }
  destruct (run_loop_signal_handler (stop_env env) t rest h3 Hint Hsg3'
              Hready3 Hstop)
    as (h4 & E4 & Hoff & Hfs4 & Hpend & Hreaped).
  exists h4. split.
  - unfold run. unfold mbind at 1, Main_bind at 1. rewrite E2.
    cbn [negb]. unfold try_except_keyboard_interrupt.
    rewrite Hloop, E4. reflexivity.
  - destruct Hkept3 as [_ Hfs3]. rewrite Hfs4, Hfs3, Hfs2. auto.
Qed.

(** X24. When the forwarder cannot be started, [run] returns at once: the
    loop is not entered, so whatever signals would have come, [stop] is not
    called and nothing of the logger is set up. *)
Theorem run_returns_when_forwarder_cannot_start (env : StartEnv)
    (on_stop : StopEnv) (ticks : list Tick) (h : Host) (e : Exn) :
  (forall cmd, popen_result env cmd = Some e) ->
  exists h',
    run float_repr env on_stop ticks h = (Finished Returned, h')
    /\ world h' = world h
    /\ logger_thread h' = logger_thread h
    /\ sigint_handler h' = sigint_handler h.
Proof.
  intros Hpopen.
  destruct (start_mavproxy_spawn_fails env h e Hpopen) as (h' & E & H).
  exists h'. split; [ | exact H ].
  unfold run. unfold mbind at 1, Main_bind at 1. rewrite E. reflexivity.
Qed.

(** X25. When the directory of the logs cannot be created, [main] ends with
    that exception after the banner: no handler is installed, no forwarder
    is started and no controller exists. *)
Theorem main_fails_when_log_dir_cannot_be_created (env : MainEnv)
    (ticks : list Tick) (h : Host) (e : Exn) :
  makedirs_result env = Some e ->
  exists h',
    main float_repr env ticks h = (Failed e, h')
    /\ world h' = world h
    /\ logger_thread h' = logger_thread h
    /\ sigint_handler h' = sigint_handler h.
Proof.
  intros Hdirs. unfold main, new_forwarder. rewrite Hdirs. unfold_main.
  cbn. eexists. split; [ reflexivity | ]. cbn. repeat split; reflexivity.
Qed.

(** X26. Under [main], when closing the log file raises during the
    handling of an interrupt, the exception leaves the handler: the program
    ends with it instead of exiting with status 0, logging is disabled, and
    the forwarder is left running, neither signalled nor reaped. *)
Theorem main_leaves_forwarder_running_when_close_fails (env : MainEnv)
    (before : list Tick) (t : Tick) (rest : list Tick) (h : Host) (n : nat)
    (e : Exn) :
  makedirs_result env = None ->
  forwarder_starts (start_env env) ->
  open_result (json_setup (start_env env)) = None ->
  forallb quiet_tick before = true ->
  interrupted t = true ->
  close_result (stop_env env) = IoError n e ->
  exists h',
    main float_repr env (before ++ t :: rest) h = (Failed e, h')
    /\ json_logging_enabled (self (world h')) = false
    /\ forwarder_running (self (world h')) = true.
Proof.
  intros Hdirs Hstarts Hopen Hquiet Hint Hclose.
  unfold main, new_forwarder. rewrite Hdirs. unfold_main. unfold lift.
  unfold_py. cbn -[run].
  match goal with
  | |- context [run _ _ _ _ ?h0] => set (h1 := h0)
  end.
  assert (Hen1 : json_logging_enabled (self (world h1)) = true)
    by reflexivity.
  destruct (start_mavproxy_ready (start_env env) h1 Hstarts Hen1 Hopen)
    as (h2 & E2 & Hrun2 & Hready2 & Hfs2 & Hsg2).
  destruct (run_loop_quiet (stop_env env) before h2 Hquiet Hrun2)
    as (h3 & Hloop & Hkept3 & Hrun3 & Hsg3).
  assert (Hsg3' : sigint_handler h3 = true).
  { rewrite Hsg3, Hsg2. reflexivity. }
  assert (Hready3 : ready (world h3) = true).
  { rewrite (logging_kept_ready _ _ Hkept3). exact Hready2. }
  destruct (run_loop_handler_close_fails (stop_env env) t rest h3 n e Hint
              Hsg3' Hready3 Hclose)
    as (h4 & E4 & Hoff & Hpr4).
  exists h4. split.
  - unfold run. unfold mbind at 1, Main_bind at 1. rewrite E2.
    cbn [negb]. unfold try_except_keyboard_interrupt.
    rewrite Hloop, E4. reflexivity.
  - split; [ exact Hoff | ].
    rewrite (forwarder_running_process _ _ Hpr4). exact Hrun3.
Qed.

End ForwarderProperties.

(** ** Concrete runs of the further properties *)

Lemma json_safe_tree_is_unchanged_witness :
  let v := make_json_serializable (PDict (to_dict (heartbeat 1))) in
  json_safe v = true /\ make_json_serializable v = v.
Proof.
  intros v. split; [ reflexivity | ].
  apply (json_safe_tree_is_unchanged v). reflexivity.
Defined.

Lemma utf8_bytes_are_normalized_to_their_text_witness :
  (Forall (fun c => is_scalar_value c = true) sample_text
   /\ map Byte.to_N sample_text_utf8 = utf8_encode sample_text)
  /\ make_json_serializable (PBytes sample_text_utf8) = PStr sample_text
  /\ make_json_serializable (PByteArray sample_text_utf8) = PStr sample_text.
Proof.
  assert (H : Forall (fun c => is_scalar_value c = true) sample_text)
    by (repeat constructor).
  split; [ split; [ exact H | reflexivity ] | ].
  apply (utf8_bytes_are_normalized_to_their_text sample_text
           sample_text_utf8 H). reflexivity.
Defined.

Lemma unserializable_frames_are_skipped_witness :
  let turns := [sample_turn 1; odd_turn; timeout_turn; sample_turn 2] in
  ((forall bits, lf_free (sample_float_repr bits) = true)
   /\ ready started_world = true
   /\ log_pending started_world = EmptyString
   /\ log_on_disk started_world = EmptyString
   /\ forallb undisturbed_turn turns = true)
  /\ exists w' : World,
       capture_loop sample_float_repr turns started_world
       = (Return Looping, w')
       /\ split_lines (log_on_disk w')
          = (documents (serializations sample_float_repr turns), EmptyString)
       /\ console w'
          = console started_world
            ++ map JsonLoggingError
                   (rejections (serializations sample_float_repr turns))
       /\ length (documents (serializations sample_float_repr turns))
          + length (rejections (serializations sample_float_repr turns))
          = length (frames_of turns).
Proof.
  intros turns. split.
  - split; [ exact sample_float_repr_lf_free | repeat split; reflexivity ].
  - apply (unserializable_frames_are_skipped sample_float_repr
             sample_float_repr_lf_free turns started_world); reflexivity.
Defined.

(** Two heartbeats around a message that cannot be serialized: two lines,
    one error. *)
Example two_lines_and_one_error :
  let turns := [sample_turn 1; odd_turn; timeout_turn; sample_turn 2] in
  length (documents (serializations sample_float_repr turns)) = 2
  /\ rejections (serializations sample_float_repr turns)
     = [not_serializable "set"].
Proof. vm_compute. split; reflexivity. Qed.

Lemma stop_flushes_and_closes_witness :
  (ready clogged_world = true /\ quiet_stop sample_stop = true)
  /\ exists w',
       stop sample_stop clogged_world = (Return tt, w')
       /\ json_logging_enabled (self w') = false
       /\ file_state w' = (fun s => (s.1, true)) <$> file_state clogged_world
       /\ log_on_disk w' = log_text clogged_world
       /\ log_pending w' = EmptyString
       /\ process_reaped (self w') = true.
Proof.
  split; [ split; reflexivity | ].
  apply (stop_flushes_and_closes sample_stop clogged_world); reflexivity.
Defined.

(** The file object of the sample holds back all of the record but its first
    twenty characters; [stop] writes them out. *)
Example clogged_log_is_completed_by_stop :
  String.length (log_on_disk clogged_world) = 20
  /\ log_pending clogged_world <> EmptyString
  /\ fst (split_lines
            (log_on_disk (run (stop sample_stop) clogged_world)))
     = documents (serializations sample_float_repr [flush_failing_turn 5]).
Proof.
  split; [ vm_compute; reflexivity | ].
  split; [ vm_compute; discriminate | vm_compute; reflexivity ].
Qed.

Lemma stop_raises_when_close_fails_witness :
  (ready running_world = true
   /\ close_result failing_stop = IoError 0 disk_full)
  /\ exists w',
       stop failing_stop running_world = (Raise disk_full, w')
       /\ mavproxy_process (self w') = mavproxy_process (self running_world)
       /\ console w' = console running_world
       /\ json_logging_enabled (self w') = false
       /\ file_state w'
          = (fun s => (s.1, true)) <$> file_state running_world
       /\ log_on_disk w'
          = log_on_disk running_world
            +:+ take_string 0 (log_pending running_world).
Proof.
  split; [ split; reflexivity | ].
  apply (stop_raises_when_close_fails failing_stop running_world 0
           disk_full); reflexivity.
Defined.

Lemma stop_kills_after_timeout_witness :
  (mavproxy_process (self running_world) = Some {| returncode := None |}
   /\ close_result slow_stop = IoOk
   /\ terminate_result slow_stop = None
   /\ wait_result slow_stop = TimeoutExpired
   /\ kill_result slow_stop = None)
  /\ exists (w' : World) (before : list Line),
       stop slow_stop running_world = (Return tt, w')
       /\ mavproxy_process (self w')
          = Some {| returncode := Some (returncode_after_kill slow_stop) |}
       /\ console w' = console running_world ++ before ++ [MavproxyStopped].
Proof.
  split; [ repeat split; reflexivity | ].
  apply (stop_kills_after_timeout slow_stop running_world); reflexivity.
Defined.

Lemma stop_reports_signal_error_witness :
  (mavproxy_process (self running_world) = Some {| returncode := None |}
   /\ close_result refused_stop = IoOk
   /\ terminate_result refused_stop = Some permission_denied)
  /\ exists (w' : World) (before : list Line),
       stop refused_stop running_world = (Return tt, w')
       /\ mavproxy_process (self w') = Some {| returncode := None |}
       /\ console w'
          = console running_world ++ before
            ++ [ErrorStoppingMavproxy permission_denied].
Proof.
  split; [ repeat split; reflexivity | ].
  apply (stop_reports_signal_error refused_stop running_world
           permission_denied); reflexivity.
Defined.

Lemma failed_setup_creates_nothing_witness :
  open_result failing_setup = Some permission_denied
  /\ exists w',
       start_json_logger failing_setup fresh_world = (Return false, w')
       /\ self w' = self fresh_world
       /\ files w' = files fresh_world
       /\ console w'
          = console fresh_world
            ++ [FailedToSetupJsonLogging permission_denied].
Proof.
  split; [ reflexivity | ].
  apply (failed_setup_creates_nothing failing_setup fresh_world
           permission_denied). reflexivity.
Defined.


(** The log of the sample session holds a record; a second start in the
    same second, which gives the same name, empties it. *)
Example second_start_empties_the_log :
  log_path sample_setup logged_world = sample_log_name
  /\ log_on_disk logged_world <> EmptyString
  /\ log_on_disk (run (start_json_logger sample_setup) logged_world)
     = EmptyString.
Proof.
  split; [ reflexivity | ].
  split; [ vm_compute; discriminate | vm_compute; reflexivity ].
Qed.

Lemma restart_after_stop_logs_nothing_witness :
  let env :=
    {| local_now_strftime := "20240101_120500"; open_result := None |} in
  let w0 := run (stop sample_stop) running_world in
  open_result env = None
  /\ exists w1,
       start_json_logger env w0 = (Return true, w1)
       /\ files w1 !! log_path env w0 = Some EmptyString
       /\ (forall (t : Turn) (rest : list Turn),
             json_logger_thread sample_float_repr None (t :: rest) w1
             = (Return Exited,
                {| self := self w1; files := files w1;
                   console := console w1 ++ [JsonLoggerConnected] |}))
       /\ (forall (cenv : CallEnv) (msg : MAVLinkMessage)
                  (direction : pystr),
             log_mavlink_message sample_float_repr cenv msg direction w1
             = (Return tt, w1)).
Proof.
  intros env w0. split; [ reflexivity | ].
  apply (restart_after_stop_logs_nothing sample_float_repr sample_stop env
           running_world). reflexivity.
Defined.

Lemma sample_float_repr_printable (bits : Z) :
  printable (sample_float_repr bits) = true.
Proof. unfold sample_float_repr. destruct (bits =? _)%Z; reflexivity. Qed.

Lemma record_text_is_printable_ascii_witness :
  exists text,
    ((forall bits, printable (sample_float_repr bits) = true)
     /\ json_dumps sample_float_repr
          (json_entry (py "2024-01-01T12:00:00+00:00") (heartbeat 1)
             (py "RX")) = Return text)
    /\ printable text = true.
Proof.
  eexists. split.
  - split; [ exact sample_float_repr_printable | reflexivity ].
  - apply (record_text_is_printable_ascii sample_float_repr
             sample_float_repr_printable (py "2024-01-01T12:00:00+00:00")
             (py "RX") (heartbeat 1)). reflexivity.
Defined.

Lemma sample_start_starts : forwarder_starts sample_start.
Proof. split; [ intros cmd; reflexivity | reflexivity ]. Qed.

Lemma start_without_log_starts : forwarder_starts start_without_log.
Proof. split; [ intros cmd; reflexivity | reflexivity ]. Qed.

Lemma start_mavproxy_sets_up_nothing_without_forwarder_witness :
  (forall cmd,
     Forwarder.popen_result start_without_mavproxy cmd = Some file_not_found)
  /\ exists h',
       Forwarder.start_mavproxy start_without_mavproxy fresh_host
       = (Forwarder.Finished false, h')
       /\ Forwarder.world h' = Forwarder.world fresh_host
       /\ Forwarder.logger_thread h' = Forwarder.logger_thread fresh_host
       /\ Forwarder.sigint_handler h' = Forwarder.sigint_handler fresh_host.
Proof.
  split; [ intros cmd; reflexivity | ].
  apply (start_mavproxy_sets_up_nothing_without_forwarder
           start_without_mavproxy fresh_host file_not_found).
  intros cmd. reflexivity.
Defined.

Lemma start_mavproxy_gives_up_on_early_exit_witness :
  ((forall cmd, Forwarder.popen_result start_exiting_early cmd = None)
   /\ Forwarder.exited_after_start start_exiting_early = Some 2%Z)
  /\ exists h',
       Forwarder.start_mavproxy start_exiting_early fresh_host
       = (Forwarder.Finished false, h')
       /\ self (Forwarder.world h')
          = set_mavproxy_process (Some {| returncode := Some 2%Z |})
                                 (self (Forwarder.world fresh_host))
       /\ files (Forwarder.world h') = files (Forwarder.world fresh_host)
       /\ console (Forwarder.world h')
          = console (Forwarder.world fresh_host)
       /\ Forwarder.logger_thread h' = Forwarder.logger_thread fresh_host
       /\ Forwarder.sigint_handler h' = Forwarder.sigint_handler fresh_host.
Proof.
  split; [ split; [ intros cmd; reflexivity | reflexivity ] | ].
  apply (start_mavproxy_gives_up_on_early_exit start_exiting_early
           fresh_host 2%Z); [ intros cmd | ]; reflexivity.
Defined.

Lemma start_mavproxy_succeeds_without_json_log_witness :
  (forwarder_starts start_without_log
   /\ exists e,
        open_result (Forwarder.json_setup start_without_log) = Some e)
  /\ exists h',
       Forwarder.start_mavproxy start_without_log fresh_host
       = (Forwarder.Finished true, h')
       /\ forwarder_running (self (Forwarder.world h')) = true
       /\ files (Forwarder.world h') = files (Forwarder.world fresh_host)
       /\ json_log_file (self (Forwarder.world h'))
          = json_log_file (self (Forwarder.world fresh_host))
       /\ json_logger (self (Forwarder.world h'))
          = json_logger (self (Forwarder.world fresh_host))
       /\ Forwarder.logger_thread h' = Forwarder.logger_thread fresh_host.
Proof.
  assert (Hopen : exists e,
            open_result (Forwarder.json_setup start_without_log) = Some e)
    by (eexists; reflexivity).
  split; [ split; [ exact start_without_log_starts | exact Hopen ] | ].
  apply (start_mavproxy_succeeds_without_json_log start_without_log
           fresh_host start_without_log_starts).
  right. exact Hopen.
Defined.

Lemma start_mavproxy_starts_the_logger_witness :
  (forwarder_starts sample_start
   /\ json_logging_enabled (self (Forwarder.world fresh_host)) = true
   /\ open_result (Forwarder.json_setup sample_start) = None)
  /\ exists h',
       Forwarder.start_mavproxy sample_start fresh_host
       = (Forwarder.Finished true, h')
       /\ forwarder_running (self (Forwarder.world h')) = true
       /\ ready (Forwarder.world h') = true
       /\ file_state (Forwarder.world h')
          = Some (log_path (Forwarder.json_setup sample_start)
                           (Forwarder.world fresh_host), false)
       /\ log_on_disk (Forwarder.world h') = EmptyString
       /\ log_pending (Forwarder.world h') = EmptyString
       /\ Forwarder.logger_thread h' = Forwarder.Created.
Proof.
  split; [ split; [ exact sample_start_starts | split; reflexivity ] | ].
  apply (start_mavproxy_starts_the_logger sample_start fresh_host
           sample_start_starts); reflexivity.
Defined.

Lemma run_leaves_the_log_open_when_forwarder_exits_witness :
  (forwarder_starts sample_start
   /\ json_logging_enabled (self (Forwarder.world fresh_host)) = true
   /\ open_result (Forwarder.json_setup sample_start) = None
   /\ forallb quiet_tick [busy_tick 1; busy_tick 2] = true
   /\ Forwarder.interrupted last_tick = false
   /\ Forwarder.exited last_tick = Some 1%Z)
  /\ exists h',
       Forwarder.run sample_float_repr sample_start sample_stop
         ([busy_tick 1; busy_tick 2] ++ last_tick :: [busy_tick 3])
         fresh_host
       = (Forwarder.Finished Forwarder.Returned, h')
       /\ mavproxy_process (self (Forwarder.world h'))
          = Some {| returncode := Some 1%Z |}
       /\ ready (Forwarder.world h') = true
       /\ file_state (Forwarder.world h')
          = Some (log_path (Forwarder.json_setup sample_start)
                           (Forwarder.world fresh_host), false).
Proof.
  split.
  - split; [ exact sample_start_starts | repeat split; reflexivity ].
  - apply (run_leaves_the_log_open_when_forwarder_exits sample_float_repr
             sample_start sample_stop [busy_tick 1; busy_tick 2] last_tick
             [busy_tick 3] fresh_host 1%Z sample_start_starts);
      reflexivity.
Defined.

Lemma run_stops_on_keyboard_interrupt_witness :
  (forwarder_starts sample_start
   /\ json_logging_enabled (self (Forwarder.world fresh_host)) = true
   /\ open_result (Forwarder.json_setup sample_start) = None
   /\ Forwarder.sigint_handler fresh_host = false
   /\ forallb quiet_tick [busy_tick 1; busy_tick 2] = true
   /\ Forwarder.interrupted interrupt_tick = true
   /\ quiet_stop sample_stop = true)
  /\ exists h',
       Forwarder.run sample_float_repr sample_start sample_stop
         ([busy_tick 1; busy_tick 2] ++ interrupt_tick :: [busy_tick 3])
         fresh_host
       = (Forwarder.Finished Forwarder.Returned, h')
       /\ json_logging_enabled (self (Forwarder.world h')) = false
       /\ file_state (Forwarder.world h')
          = Some (log_path (Forwarder.json_setup sample_start)
                           (Forwarder.world fresh_host), true)
       /\ log_pending (Forwarder.world h') = EmptyString
       /\ process_reaped (self (Forwarder.world h')) = true.
Proof.
  split.
  - split; [ exact sample_start_starts | repeat split; reflexivity ].
  - apply (run_stops_on_keyboard_interrupt sample_float_repr sample_start
             sample_stop [busy_tick 1; busy_tick 2] interrupt_tick
             [busy_tick 3] fresh_host sample_start_starts); reflexivity.
Defined.

Lemma main_exits_on_interrupt_witness :
  (Forwarder.makedirs_result sample_main = None
   /\ forwarder_starts (Forwarder.start_env sample_main)
   /\ open_result (Forwarder.json_setup (Forwarder.start_env sample_main))
      = None
   /\ forallb quiet_tick [busy_tick 1; busy_tick 2] = true
   /\ Forwarder.interrupted interrupt_tick = true
   /\ quiet_stop (Forwarder.stop_env sample_main) = true)
  /\ exists h',
       Forwarder.main sample_float_repr sample_main
         ([busy_tick 1; busy_tick 2] ++ interrupt_tick :: [busy_tick 3])
         fresh_host
       = (Forwarder.SystemExit 0, h')
       /\ json_logging_enabled (self (Forwarder.world h')) = false
       /\ file_state (Forwarder.world h')
          = Some ("logs/mavlink_messages_"
                  +:+ local_now_strftime
                        (Forwarder.json_setup
                           (Forwarder.start_env sample_main))
                  +:+ ".jsonl", true)
       /\ log_pending (Forwarder.world h') = EmptyString
       /\ process_reaped (self (Forwarder.world h')) = true.
Proof.
  split.
  - split; [ reflexivity | ].
    split; [ exact sample_start_starts | repeat split; reflexivity ].
  - apply (main_exits_on_interrupt sample_float_repr sample_main
             [busy_tick 1; busy_tick 2] interrupt_tick [busy_tick 3]
             fresh_host); try reflexivity. exact sample_start_starts.
Defined.

Lemma run_returns_when_forwarder_cannot_start_witness :
  (forall cmd,
     Forwarder.popen_result start_without_mavproxy cmd = Some file_not_found)
  /\ exists h',
       Forwarder.run sample_float_repr start_without_mavproxy sample_stop
         [busy_tick 1; interrupt_tick] fresh_host
       = (Forwarder.Finished Forwarder.Returned, h')
       /\ Forwarder.world h' = Forwarder.world fresh_host
       /\ Forwarder.logger_thread h' = Forwarder.logger_thread fresh_host
       /\ Forwarder.sigint_handler h' = Forwarder.sigint_handler fresh_host.
Proof.
  split; [ intros cmd; reflexivity | ].
  apply (run_returns_when_forwarder_cannot_start sample_float_repr
           start_without_mavproxy sample_stop [busy_tick 1; interrupt_tick]
           fresh_host file_not_found).
  intros cmd. reflexivity.
Defined.

Lemma main_fails_when_log_dir_cannot_be_created_witness :
  Forwarder.makedirs_result main_without_log_dir = Some permission_denied
  /\ exists h',
       Forwarder.main sample_float_repr main_without_log_dir
         [busy_tick 1; interrupt_tick] fresh_host
       = (Forwarder.Failed permission_denied, h')
       /\ Forwarder.world h' = Forwarder.world fresh_host
       /\ Forwarder.logger_thread h' = Forwarder.logger_thread fresh_host
       /\ Forwarder.sigint_handler h' = Forwarder.sigint_handler fresh_host.
Proof.
  split; [ reflexivity | ].
  apply (main_fails_when_log_dir_cannot_be_created sample_float_repr
           main_without_log_dir [busy_tick 1; interrupt_tick] fresh_host
           permission_denied). reflexivity.
Defined.

Lemma main_leaves_forwarder_running_when_close_fails_witness :
  (Forwarder.makedirs_result main_failing_close = None
   /\ forwarder_starts (Forwarder.start_env main_failing_close)
   /\ open_result
        (Forwarder.json_setup (Forwarder.start_env main_failing_close))
      = None
   /\ forallb quiet_tick [busy_tick 1; busy_tick 2] = true
   /\ Forwarder.interrupted interrupt_tick = true
   /\ close_result (Forwarder.stop_env main_failing_close)
      = IoError 0 disk_full)
  /\ exists h',
       Forwarder.main sample_float_repr main_failing_close
         ([busy_tick 1; busy_tick 2] ++ interrupt_tick :: [busy_tick 3])
         fresh_host
       = (Forwarder.Failed disk_full, h')
       /\ json_logging_enabled (self (Forwarder.world h')) = false
       /\ forwarder_running (self (Forwarder.world h')) = true.
Proof.
  split.
  - split; [ reflexivity | ].
    split; [ exact sample_start_starts | repeat split; reflexivity ].
  - apply (main_leaves_forwarder_running_when_close_fails sample_float_repr
             main_failing_close [busy_tick 1; busy_tick 2] interrupt_tick
             [busy_tick 3] fresh_host 0 disk_full); try reflexivity.
    exact sample_start_starts.
Defined.

(** The sample session under [main]: two heartbeats are logged, then the
    interrupt; the log holds the two records and the program exits with
    status 0. *)
Example session_under_main :
  let r := Forwarder.main sample_float_repr sample_main
             [busy_tick 1; busy_tick 2; interrupt_tick] fresh_host in
  fst r = Forwarder.SystemExit 0
  /\ length (fst (split_lines (log_on_disk (Forwarder.world (snd r))))) = 2
  /\ snd (split_lines (log_on_disk (Forwarder.world (snd r))))
     = EmptyString
  /\ file_state (Forwarder.world (snd r)) = Some (sample_log_name, true).
Proof. vm_compute. repeat split; reflexivity. Qed.
